(** * navigate_to_aruco: the approach-a-marker action server

    A shallow embedding of [nodes/navigate_to_aruco.py] (class
    [NavigateToArucoServer]) and the properties of its pose averaging,
    its convergence metric and its retry state machine.

    Conventions of the embedding.
    - A Python [float] is an IEEE 754 binary64 number: Rocq's primitive
      [float], whose operations are the kernel's and round as the
      hardware does.  [a ** 2] is CPython's [float_pow]: its special
      cases, then the [pow] of the platform's C library, which is not
      correctly rounded in general and is a method of the class [Libm].
    - An attribute of the server that [__init__] does not assign does not
      exist until a method assigns it: reading it before raises
      [AttributeError].
    - A message object ([TransformStamped]) lives in a store and is named
      by a location, so that two names of one object see each other's
      writes.  Its time stamp is left out.
    - [tf.transformations] is a library outside the repository: its two
      functions are the methods of the class [Transformations].
    - The collaborators (head scan, move_base, tf2 buffer, the action
      client that may cancel) are a [World] of answers, read in the order
      in which the server asks.
    - Each call the server makes on a collaborator or on its own action
      server is appended to a trace; [print] and [rospy.loginfo] are not
      recorded. *)

From Stdlib Require Import ZArith Floats.
From stdpp Require Import gmap list strings.

Set Warnings "-inexact-float".

Local Open Scope float_scope.

(** ** Messages *)

Record Vector3 := mkVector3 { v_x : float; v_y : float; v_z : float }.

Record Quaternion := mkQuaternion
  { q_x : float; q_y : float; q_z : float; q_w : float }.

(** [geometry_msgs/Transform]. *)
Record Transform := mkTransform
  { translation : Vector3; rotation : Quaternion }.

(** [geometry_msgs/TransformStamped], [header.stamp] left out. *)
Record TransformStamped := mkTransformStamped
  { frame_id : string; child_frame_id : string; transform : Transform }.

(** [geometry_msgs/Pose]. *)
Record Pose := mkPose { position : Vector3; orientation : Quaternion }.

Definition tx (t : TransformStamped) : float := v_x (translation (transform t)).
Definition ty (t : TransformStamped) : float := v_y (translation (transform t)).
Definition tz (t : TransformStamped) : float := v_z (translation (transform t)).
Definition trot (t : TransformStamped) : Quaternion := rotation (transform t).

(** Field assignments [t.transform.translation.x = v] and the like. *)
Definition set_tx (v : float) (t : TransformStamped) : TransformStamped :=
  mkTransformStamped (frame_id t) (child_frame_id t)
    (mkTransform (mkVector3 v (ty t) (tz t)) (trot t)).

Definition set_ty (v : float) (t : TransformStamped) : TransformStamped :=
  mkTransformStamped (frame_id t) (child_frame_id t)
    (mkTransform (mkVector3 (tx t) v (tz t)) (trot t)).

Definition set_tz (v : float) (t : TransformStamped) : TransformStamped :=
  mkTransformStamped (frame_id t) (child_frame_id t)
    (mkTransform (mkVector3 (tx t) (ty t) v) (trot t)).

Definition set_trot (q : Quaternion) (t : TransformStamped) : TransformStamped :=
  mkTransformStamped (frame_id t) (child_frame_id t)
    (mkTransform (mkVector3 (tx t) (ty t) (tz t)) q).

(** ** The library [tf.transformations] *)

Class Transformations := {
  (** [euler_from_quaternion([x, y, z, w])]: roll, pitch, yaw. *)
  euler_from_quaternion : Quaternion -> float * float * float;
  (** [quaternion_from_euler(roll, pitch, yaw)]. *)
  quaternion_from_euler : float -> float -> float -> Quaternion
}.

(** [angles[2]] *)
Definition angle_2 (angles : float * float * float) : float := snd angles.

(** ** Python numbers *)

Inductive exn :=
  | LookupException
  | ConnectivityException
  | ExtrapolationException
  | OverflowError
  | IndexError
  | AttributeError.

(** [float(n)] for the length of a list. *)
Definition float_of_len (n : nat) : float :=
  PrimFloat.of_uint63 (Uint63.of_Z (Z.of_nat n)).

(** The C library: [pow(x, y)] on doubles.  Its result depends on the
    platform (glibc's, for one, is within an ulp of the exact power but
    not always the nearest double). *)
Class Libm := {
  libm_pow : float -> float -> float
}.

(** [iv ** 2] on floats, as CPython's [float_pow] computes it with the
    exponent [iw = 2.0]: a [nan] is returned as it is and an infinity as
    its absolute value; a zero gives [0.0]; a negative base is replaced
    by its absolute value (the exponent is even, the result is not
    negated); [1.0] gives [1.0]; every other base goes to the platform's
    [pow], and an infinite result is an [OverflowError] ([None]). *)
Definition pow2 `{LM : Libm} (iv : float) : option float :=
  if is_nan iv then Some iv
  else if is_infinity iv then Some (abs iv)
  else if iv =? 0 then Some 0
  else
    let iv := abs iv in
    if iv =? 1 then Some 1
    else
      let ix := libm_pow iv 2 in
      if is_infinity ix then None else Some ix.

(** ** The object store *)

Definition loc := nat.
Abbreviation store := (gmap loc TransformStamped).

Section PoseAveraging.
Context `{TF : Transformations} `{LM : Libm}.

(** The body of [for i in range(1, len(transforms))], over the
    references [transforms[1:]]; [trans] is the reference taken from
    [transforms[0]].  Each statement reads the store as the previous
    one left it. *)
Fixpoint average_transforms_loop (trans : loc) (rest : list loc)
    (h : store) (angle : float) : option (store * float) :=
  match rest with
  | [] => Some (h, angle)
  | ti :: rest' =>
      t ← h !! trans; s ← h !! ti;
      let h1 := <[trans := set_tx (tx t + tx s) t]> h in
      t1 ← h1 !! trans; s1 ← h1 !! ti;
      let h2 := <[trans := set_ty (ty t1 + ty s1) t1]> h1 in
      s2 ← h2 !! ti;
      let angles := euler_from_quaternion (trot s2) in
      average_transforms_loop trans rest' h2 (angle + angle_2 angles)
  end.

(** [average_transforms(self, transforms)].  The result is the new
    store and the reference returned.  [None] is the [IndexError] of
    [transforms[0]] on an empty list (and the answer on a reference
    that names nothing in the store, which Python cannot build). *)
Definition average_transforms (h : store) (transforms : list loc)
    : option (store * loc) :=
  trans ← head transforms;
  t ← h !! trans;
  let h := <[trans := set_tz 0 t]> h in
  t ← h !! trans;
  let angles := euler_from_quaternion (trot t) in
  let angle := angle_2 angles in
  '(h, angle) ← average_transforms_loop trans (tail transforms) h angle;
  let n := float_of_len (length transforms) in
  t ← h !! trans;
  let h := <[trans := set_tx (tx t / n) t]> h in
  t ← h !! trans;
  let h := <[trans := set_ty (ty t / n) t]> h in
  let angle := angle / n in
  let q := quaternion_from_euler 0 0 angle in
  t ← h !! trans;
  let h := <[trans := set_trot q t]> h in
  Some (h, trans).

(** [calculate_diff(self, trans1, trans2)]. *)
Definition calculate_diff (trans1 trans2 : TransformStamped)
    : exn + float :=
  let angle1 := euler_from_quaternion (trot trans1) in
  let angle2 := euler_from_quaternion (trot trans2) in
  match pow2 (tx trans1 - tx trans2),
        pow2 (ty trans1 - ty trans2),
        pow2 (angle_2 angle1 - angle_2 angle2) with
  | Some dx2, Some dy2, Some da2 => inr (sqrt (dx2 + dy2 + da2))
  | _, _, _ => inl OverflowError
  end.

End PoseAveraging.

(** ** The collaborators *)

(** The three exceptions of [tf2_ros] that [lookup_transform] raises. *)
Inductive tf2_error := TfLookup | TfConnectivity | TfExtrapolation.

Definition exn_of_tf2 (e : tf2_error) : exn :=
  match e with
  | TfLookup => LookupException
  | TfConnectivity => ConnectivityException
  | TfExtrapolation => ExtrapolationException
  end.

Inductive lookup_answer :=
  | Found (t : Transform)
  | NotFound (e : tf2_error).

(** What the collaborators answer, by the number of the call.
    - [head_scan_result k]: whether [get_result()] is truthy after the
      [k]-th head scan goal;
    - [move_base_result k]: the status the [k]-th [move_base] goal returns;
    - [tf_lookup k]: the outcome of the [k]-th [lookup_transform];
    - [cancel_arrives k]: whether the client's cancel request is delivered
      while the server sits in its [k]-th blocking call (a head scan, a
      [move_base] goal, a lookup or a sleep). *)
Record World := mkWorld {
  head_scan_result : nat -> bool;
  move_base_result : nat -> Z;
  tf_lookup : nat -> lookup_answer;
  cancel_arrives : nat -> bool
}.

(** ** Traces *)

Inductive event :=
  | PublishFeedback (state alert_type : string)
  | SetAborted
  | SetSucceeded
  | SetPreempted
  | IsPreemptRequested (answer : bool)
  | HeadScanGoal (name : string)
  | HeadScanGetResult (found : bool)
  | HeadScanCancelAll
  | MoveBaseGoal (frame : string) (pose : Pose)
  | MoveBaseCancelAll
  | LookupTransform (target source : string)
  | SendTransform (t : TransformStamped)
  | Sleep
  (** not a call: the value just assigned to [self.num_tries] *)
  | NumTries (n : Z).

(** The terminal states of an actionlib goal. *)
Inductive terminal := Succeeded | Aborted | Preempted.

Definition terminal_of (e : event) : option terminal :=
  match e with
  | SetSucceeded => Some Succeeded
  | SetAborted => Some Aborted
  | SetPreempted => Some Preempted
  | _ => None
  end.

(** The state the goal ends in: actionlib's goal handle leaves an active
    goal on the first [set_succeeded], [set_aborted] or [set_preempted]
    and refuses (with a logged error) any later one. *)
Definition goal_status (tr : list event) : option terminal :=
  head (omap terminal_of tr).

Definition is_move_base_goal (e : event) : bool :=
  match e with MoveBaseGoal _ _ => true | _ => false end.

Definition is_head_scan_goal (e : event) : bool :=
  match e with HeadScanGoal _ => true | _ => false end.

Definition is_lookup (e : event) : bool :=
  match e with LookupTransform _ _ => true | _ => false end.

Definition tries_of (e : event) : option Z :=
  match e with NumTries n => Some n | _ => None end.

(** How many navigation goals were sent. *)
Definition navigation_attempts (tr : list event) : nat :=
  length (filter (fun e => is_move_base_goal e = true) tr).

(** The values [self.num_tries] took, in order. *)
Definition tries_history (tr : list event) : list Z := omap tries_of tr.

(** ** The server's state *)

Record St := mkSt {
  (** fields of [NavigateToArucoServer] that the methods read *)
  num_tries : Z;
  max_tries : Z;
  (** [None]: the attribute has not been assigned yet *)
  aruco_name : option string;
  relative_pose : option Transform;
  map_to_aruco : option TransformStamped;
  relative_pose_tf : option TransformStamped;
  (** actionlib's [preempt_request] flag of the action server *)
  preempt_request : bool;
  (** how many answers of each kind the world has given *)
  n_blocking : nat;
  n_scans : nat;
  n_lookups : nat;
  n_navs : nat;
  trace : list event
}.

(** [NavigateToArucoGoal] *)
Record Goal := mkGoal { goal_name : string; goal_pose : Transform }.

(** [__init__]: it assigns [num_tries] and [max_tries]; [aruco_name],
    [relative_pose], [map_to_aruco] and [relative_pose_tf] do not exist
    yet. *)
Definition init : St :=
  {| num_tries := 0; max_tries := 3; aruco_name := None;
     relative_pose := None;
     map_to_aruco := None; relative_pose_tf := None;
     preempt_request := false;
     n_blocking := 0; n_scans := 0; n_lookups := 0; n_navs := 0;
     trace := [] |}.

(** ** Statements: state, exceptions, recursion depth *)

Inductive res (A : Type) :=
  | Ok (a : A) (s : St)
  | Raise (e : exn) (s : St)
  | OutOfFuel.
Arguments Ok {A} a s.
Arguments Raise {A} e s.
Arguments OutOfFuel {A}.

Definition M (A : Type) : Type := St -> res A.

Definition ret {A} (a : A) : M A := fun s => Ok a s.

Definition bind {A B} (m : M A) (f : A -> M B) : M B :=
  fun s =>
    match m s with
    | Ok a s' => f a s'
    | Raise e s' => Raise e s'
    | OutOfFuel => OutOfFuel
    end.

Definition raise {A} (e : exn) : M A := fun s => Raise e s.

Declare Scope py_scope.
Delimit Scope py_scope with py.
Notation "x <- m ;; k" := (bind m (fun x => k))
  (at level 100, m at next level, right associativity) : py_scope.
Notation "m ;; k" := (bind m (fun _ => k))
  (at level 100, right associativity) : py_scope.

(** [except (tf2_ros.LookupException, tf2_ros.ConnectivityException,
    tf2_ros.ExtrapolationException)] *)
Definition caught (e : exn) : bool :=
  match e with
  | LookupException | ConnectivityException | ExtrapolationException => true
  | _ => false
  end.

Definition try_except {A} (body : M A) (handler : M A) : M A :=
  fun s =>
    match body s with
    | Raise e s' => if caught e then handler s' else Raise e s'
    | r => r
    end.

(** The state a run stops in, when it stops. *)
Definition final {A} (r : res A) : option St :=
  match r with Ok _ s => Some s | Raise _ s => Some s | OutOfFuel => None end.

(** The exception a run leaves uncaught, if any. *)
Definition uncaught {A} (r : res A) : option exn :=
  match r with Raise e _ => Some e | _ => None end.

(** ** Assignments to the server's attributes *)

Definition emit (e : event) : M unit :=
  fun s =>
    Ok tt (mkSt (num_tries s) (max_tries s) (aruco_name s) (relative_pose s)
             (map_to_aruco s) (relative_pose_tf s) (preempt_request s)
             (n_blocking s) (n_scans s) (n_lookups s) (n_navs s)
             (trace s ++ [e])).

(** [self.num_tries = n] *)
Definition set_num_tries (n : Z) : M unit :=
  fun s =>
    Ok tt (mkSt n (max_tries s) (aruco_name s) (relative_pose s)
             (map_to_aruco s) (relative_pose_tf s) (preempt_request s)
             (n_blocking s) (n_scans s) (n_lookups s) (n_navs s)
             (trace s ++ [NumTries n])).

(** [self.goal = goal; self.aruco_name = self.goal.name;
    self.relative_pose = self.goal.pose] *)
Definition set_goal (g : Goal) : M unit :=
  fun s =>
    Ok tt (mkSt (num_tries s) (max_tries s) (Some (goal_name g))
             (Some (goal_pose g))
             (map_to_aruco s) (relative_pose_tf s) (preempt_request s)
             (n_blocking s) (n_scans s) (n_lookups s) (n_navs s) (trace s)).

(** [self.map_to_aruco = t] *)
Definition set_map_to_aruco (t : TransformStamped) : M unit :=
  fun s =>
    Ok tt (mkSt (num_tries s) (max_tries s) (aruco_name s) (relative_pose s)
             (Some t) (relative_pose_tf s) (preempt_request s)
             (n_blocking s) (n_scans s) (n_lookups s) (n_navs s) (trace s)).

(** [self.relative_pose_tf = t] *)
Definition set_relative_pose_tf (t : TransformStamped) : M unit :=
  fun s =>
    Ok tt (mkSt (num_tries s) (max_tries s) (aruco_name s) (relative_pose s)
             (map_to_aruco s) (Some t) (preempt_request s)
             (n_blocking s) (n_scans s) (n_lookups s) (n_navs s) (trace s)).

Definition get {A} (f : St -> A) : M A := fun s => Ok (f s) s.

(** Reading an attribute that exists only once a method has assigned
    it: [self.aruco_name], [self.relative_pose]. *)
Definition get_attr {A} (f : St -> option A) : M A :=
  fun s =>
    match f s with
    | Some a => Ok a s
    | None => Raise AttributeError s
    end.

(** Reading [self.map_to_aruco] before any method has set it. *)
Definition get_map_to_aruco : M TransformStamped :=
  fun s =>
    match map_to_aruco s with
    | Some t => Ok t s
    | None => Raise AttributeError s
    end.

Local Open Scope py_scope.

(** ** The action server and its clients *)

(** [self.server.publish_feedback(self.feedback)], after the two
    assignments to [self.feedback]. *)
Definition publish_feedback (state alert_type : string) : M unit :=
  emit (PublishFeedback state alert_type).

Definition set_aborted : M unit := emit SetAborted.
Definition set_succeeded : M unit := emit SetSucceeded.
Definition set_preempted : M unit := emit SetPreempted.

(** [self.server.is_preempt_requested()] *)
Definition is_preempt_requested : M bool :=
  b <- get preempt_request;;
  emit (IsPreemptRequested b);;
  ret b.

(** [cancel_goals(self)], the callback registered with
    [register_preempt_callback]. *)
Definition cancel_goals : M unit :=
  emit HeadScanCancelAll;;
  emit MoveBaseCancelAll;;
  set_preempted.

(** [preempt_callback(self)] *)
Definition preempt_callback : M unit :=
  publish_feedback "Aruco navigation cancelled!" "error".

(** [broadcast_tf(self, trans, name, ref)] *)
Definition broadcast_tf (trans : Transform) (name ref : string)
    : TransformStamped :=
  mkTransformStamped ref name trans.

(** One more answer of the world has been used. *)
Definition count_scan : M unit :=
  fun s =>
    Ok tt (mkSt (num_tries s) (max_tries s) (aruco_name s) (relative_pose s)
             (map_to_aruco s) (relative_pose_tf s) (preempt_request s)
             (n_blocking s) (S (n_scans s)) (n_lookups s) (n_navs s)
             (trace s)).

Definition count_lookup : M unit :=
  fun s =>
    Ok tt (mkSt (num_tries s) (max_tries s) (aruco_name s) (relative_pose s)
             (map_to_aruco s) (relative_pose_tf s) (preempt_request s)
             (n_blocking s) (n_scans s) (S (n_lookups s)) (n_navs s)
             (trace s)).

Definition count_nav : M unit :=
  fun s =>
    Ok tt (mkSt (num_tries s) (max_tries s) (aruco_name s) (relative_pose s)
             (map_to_aruco s) (relative_pose_tf s) (preempt_request s)
             (n_blocking s) (n_scans s) (n_lookups s) (S (n_navs s))
             (trace s)).

Section Collaborators.
Variable w : World.

(** The server sits in a blocking call.  When the client's cancel request
    is delivered meanwhile, actionlib sets [preempt_request] and runs the
    registered preempt callback, [cancel_goals], in its own thread. *)
Definition blocking : M unit :=
  fun s =>
    let arrives := cancel_arrives w (n_blocking s) in
    let s' :=
      mkSt (num_tries s) (max_tries s) (aruco_name s) (relative_pose s)
        (map_to_aruco s) (relative_pose_tf s)
        (preempt_request s || arrives)
        (S (n_blocking s)) (n_scans s) (n_lookups s) (n_navs s) (trace s) in
    if arrives then cancel_goals s' else Ok tt s'.

(** [self.head_scan_client.send_goal_and_wait(head_scan_goal)] *)
Definition head_scan_send_goal_and_wait (name : string) : M unit :=
  emit (HeadScanGoal name);;
  count_scan;;
  blocking.

(** [self.head_scan_client.get_result()], as a truth value: the result
    of the last goal sent. *)
Definition head_scan_get_result : M bool :=
  n <- get n_scans;;
  let found := match n with O => false | S k => head_scan_result w k end in
  emit (HeadScanGetResult found);;
  ret found.

(** [self.move_base_client.send_goal_and_wait(action_goal)] *)
Definition move_base_send_goal_and_wait (frame : string) (pose : Pose)
    : M Z :=
  emit (MoveBaseGoal frame pose);;
  n <- get n_navs;;
  count_nav;;
  blocking;;
  ret (move_base_result w n).

(** [self.tf2_buffer.lookup_transform(target, source, ...)] *)
Definition lookup_transform (target source : string) : M TransformStamped :=
  emit (LookupTransform target source);;
  n <- get n_lookups;;
  count_lookup;;
  blocking;;
  match tf_lookup w n with
  | Found t => ret (mkTransformStamped target source t)
  | NotFound e => raise (exn_of_tf2 e)
  end.

(** [rospy.sleep(0.1)] *)
Definition sleep : M unit := emit Sleep;; blocking.

End Collaborators.

(** ** The methods of [NavigateToArucoServer] *)

(** The objects the lookups returned, each a fresh object of the store,
    and the list [transforms] of their references. *)
Definition alloc (ts : list TransformStamped) : store * list loc :=
  (map_seq 0 ts, seq 0 (length ts)).

(** [goal_pose = Pose()] and its seven assignments. *)
Definition pose_of (t : TransformStamped) : Pose :=
  mkPose (mkVector3 (tx t) (ty t) (tz t))
         (mkQuaternion (q_x (trot t)) (q_y (trot t)) (q_z (trot t))
                       (q_w (trot t))).

(** [diff > 0.075] *)
Definition exceeds_threshold (diff : float) : bool := 0.075 <? diff.

Definition not_located : string :=
  "Could not find Aruco Marker. Stretch may be too far away, try moving it closer to the marker.".

Definition navigation_failed : string :=
  "Navigation failed, please try again.".

Section Server.
Context `{TF : Transformations} `{LM : Libm}.
Variable w : World.

(** [self.average_transforms(transforms)] on the objects of the lookups:
    the object the returned reference names, as the caller then reads it
    ([None]: the call raised). *)
Definition averaged (samples : list TransformStamped)
    : option TransformStamped :=
  let '(h, transforms) := alloc samples in
  r ← average_transforms h transforms;
  fst r !! snd r.

(** [while len(transforms) < 10: try: ... except ...: ...; return], with
    [k] the number of samples still missing.  [None]: the handler ran and
    the method returns. *)
Fixpoint sample_transforms (k : nat) (transforms : list TransformStamped)
    : M (option (list TransformStamped)) :=
  match k with
  | O => ret (Some transforms)
  | S k' =>
      r <- try_except
             (trans <- lookup_transform w "map" "relative_pose";;
              ret (Some (transforms ++ [trans])))
             (publish_feedback navigation_failed "error";;
              set_aborted;;
              ret None);;
      match r with
      | Some transforms' => sample_transforms k' transforms'
      | None => ret None
      end
  end.

(** [move_base_aruco_callback(self, result)]; [navigate_to_marker] is
    the method it calls back into. *)
Definition move_base_aruco_callback (navigate_to_marker : M unit)
    (result : Z) : M unit :=
  preempt <- is_preempt_requested;;
  if preempt then preempt_callback
  else
    tries <- get num_tries;;
    limit <- get max_tries;;
    if Z.eqb tries limit then
      set_num_tries 0;;
      publish_feedback navigation_failed "error";;
      set_aborted
    else
      sleep w;;
      name <- get_attr aruco_name;;
      head_scan_send_goal_and_wait w name;;
      found <- head_scan_get_result w;;
      if negb found then
        publish_feedback not_located "error";;
        set_aborted
      else
        r <- try_except
               (t <- lookup_transform w "map" name;; ret (Some t))
               (publish_feedback navigation_failed "error";;
                set_aborted;;
                ret None);;
        match r with
        | None => ret tt
        | Some new_map_to_aruco =>
            old <- get_map_to_aruco;;
            match calculate_diff old new_map_to_aruco with
            | inl e => raise e
            | inr diff =>
                (if exceeds_threshold diff then
                   set_map_to_aruco new_map_to_aruco;;
                   navigate_to_marker
                 else ret tt);;
                publish_feedback "Navigation succeeded!" "success";;
                set_succeeded
            end
        end.

(** [navigate_to_marker(self)]; [depth] bounds the nesting of the calls
    of [navigate_to_marker] inside [move_base_aruco_callback]. *)
Fixpoint navigate_to_marker (depth : nat) : M unit :=
  match depth with
  | O => fun _ => OutOfFuel
  | S depth' =>
      preempt <- is_preempt_requested;;
      if preempt then preempt_callback
      else
        tries <- get num_tries;;
        set_num_tries (tries + 1);;
        pose <- get_attr relative_pose;;
        name <- get_attr aruco_name;;
        emit (SendTransform (broadcast_tf pose "relative_pose" name));;
        publish_feedback "Navigating to marker..." "info";;
        sampled <- sample_transforms 10 [];;
        match sampled with
        | None => ret tt
        | Some samples =>
            match averaged samples with
            | None => raise IndexError
            | Some avg =>
                set_relative_pose_tf avg;;
                result <- move_base_send_goal_and_wait w "map" (pose_of avg);;
                move_base_aruco_callback (navigate_to_marker depth') result
            end
        end
  end.

(** [execute_callback(self, goal)] *)
Definition execute_callback (depth : nat) (goal : Goal) : M unit :=
  set_num_tries 0;;
  set_goal goal;;
  publish_feedback "Scanning for marker..." "info";;
  name <- get_attr aruco_name;;
  head_scan_send_goal_and_wait w name;;
  preempt <- is_preempt_requested;;
  if preempt then preempt_callback
  else
    found <- head_scan_get_result w;;
    if negb found then
      publish_feedback not_located "error";;
      set_aborted
    else
      _marker <- lookup_transform w "base_link" name;;
      t <- lookup_transform w "map" name;;
      set_map_to_aruco t;;
      navigate_to_marker depth.

End Server.

(** The server as actionlib drives it: a goal is accepted (which clears
    [preempt_request]) and [execute_callback] runs on it. *)
Definition accept_new_goal : M unit :=
  fun s =>
    Ok tt (mkSt (num_tries s) (max_tries s) (aruco_name s) (relative_pose s)
             (map_to_aruco s) (relative_pose_tf s) false
             0 0 0 0 []).

Definition serve `{TF : Transformations} `{LM : Libm} (w : World)
    (depth : nat)
    (goal : Goal) : M unit :=
  accept_new_goal;;
  execute_callback w depth goal.

(** ** Concrete scenarios *)

(** [tf.transformations] at the identity rotation, the only rotation the
    scenarios below use: there [euler_from_quaternion([0, 0, 0, 1])] is
    [(0.0, -0.0, 0.0)] and [quaternion_from_euler(0, 0, 0.0)] is
    [[0, 0, 0, 1]]. *)
Definition tf_at_identity : Transformations :=
  {| euler_from_quaternion := fun _ => (0, -0, 0);
     quaternion_from_euler := fun _ _ _ => mkQuaternion 0 0 0 1 |}.

(** A C library whose [pow] is correctly rounded at the exponent 2, the
    only exponent of the program (other exponents are answered [nan]).
    Wherever the square of the base is a binary64 number, which is the
    case at every base the scenarios below hand to [pow], every [pow]
    whose error is below one ulp returns this value. *)
Definition correctly_rounded : Libm :=
  {| libm_pow := fun x y => if y =? 2 then x * x else nan |}.

(** A pose at [(x, y, z)], not rotated. *)
Definition upright (x y z : float) : Transform :=
  mkTransform (mkVector3 x y z) (mkQuaternion 0 0 0 1).

Definition sample (x y z : float) : TransformStamped :=
  mkTransformStamped "map" "relative_pose" (upright x y z).

(** The request of the scenarios: stop half a metre in front of the
    marker "dock". *)
Definition dock : Goal := mkGoal "dock" (upright 0.5 0 0).

(** Status values of [actionlib_msgs/GoalStatus]. *)
Definition STATUS_SUCCEEDED : Z := 3.
Definition STATUS_ABORTED : Z := 4.

(** The marker is always found and never cancelled, and every lookup
    answers one metre further along [x] than the one before: the
    estimate never settles. *)
Definition drifting : World :=
  mkWorld (fun _ => true) (fun _ => STATUS_SUCCEEDED)
          (fun k => Found (upright (float_of_len k) 0 0))
          (fun _ => false).

(** The marker is always found at [(1, 2, 0)], never cancelled; every
    navigation goal fails. *)
Definition settled : World :=
  mkWorld (fun _ => true) (fun _ => STATUS_ABORTED)
          (fun _ => Found (upright 1 2 0))
          (fun _ => false).

(** The marker is found by the scan, but its frame is not in the
    transform buffer. *)
Definition lost_frame : World :=
  mkWorld (fun _ => true) (fun _ => STATUS_SUCCEEDED)
          (fun _ => NotFound TfLookup)
          (fun _ => false).

(** As [settled], and the client cancels while the server waits for the
    second head scan: its blocking calls are the first scan (0), two
    lookups (1, 2), ten samples (3 to 12), the navigation goal (13), the
    sleep (14) and that scan (15). *)
Definition cancelled_during_rescan : World :=
  mkWorld (fun _ => true) (fun _ => STATUS_SUCCEEDED)
          (fun _ => Found (upright 1 2 0))
          (fun k => Nat.eqb k 15).

(** The first three lookups succeed, every later one fails. *)
Definition sampling_breaks : World :=
  mkWorld (fun _ => true) (fun _ => STATUS_SUCCEEDED)
          (fun k => if Nat.ltb k 3 then Found (upright 1 2 0)
                    else NotFound TfConnectivity)
          (fun _ => false).

(** A fresh server on which the request for "dock" has been assigned
    to [aruco_name] and [relative_pose], as [execute_callback] does
    first. *)
Definition assigned : St :=
  {| num_tries := 0; max_tries := 3; aruco_name := Some "dock";
     relative_pose := Some (upright 0.5 0 0);
     map_to_aruco := None; relative_pose_tf := None;
     preempt_request := false;
     n_blocking := 0; n_scans := 0; n_lookups := 0; n_navs := 0;
     trace := [] |}.

(** A server in the middle of a request for "dock": one navigation goal
    has completed, the marker was last seen at [(1, 2, 0)]. *)
Definition after_first_navigation : St :=
  {| num_tries := 1; max_tries := 3; aruco_name := Some "dock";
     relative_pose := Some (upright 0.5 0 0);
     map_to_aruco := Some (mkTransformStamped "map" "dock" (upright 1 2 0));
     relative_pose_tf := None;
     preempt_request := false;
     n_blocking := 14; n_scans := 1; n_lookups := 12; n_navs := 1;
     trace := [] |}.

(** The same request in the world [drifting], when the third navigation
    goal has completed: the marker was last seen at [(23, 0, 0)]. *)
Definition after_third_navigation : St :=
  {| num_tries := 3; max_tries := 3; aruco_name := Some "dock";
     relative_pose := Some (upright 0.5 0 0);
     map_to_aruco := Some (mkTransformStamped "map" "dock" (upright 23 0 0));
     relative_pose_tf := None;
     preempt_request := false;
     n_blocking := 42; n_scans := 3; n_lookups := 34; n_navs := 3;
     trace := [] |}.

(** As [after_first_navigation], the client's cancel request having
    arrived during the navigation. *)
Definition cancellation_pending : St :=
  {| num_tries := 1; max_tries := 3; aruco_name := Some "dock";
     relative_pose := Some (upright 0.5 0 0);
     map_to_aruco := Some (mkTransformStamped "map" "dock" (upright 1 2 0));
     relative_pose_tf := None;
     preempt_request := true;
     n_blocking := 14; n_scans := 1; n_lookups := 12; n_navs := 1;
     trace := [] |}.

(** The scan never finds the marker. *)
Definition marker_missing : World :=
  mkWorld (fun _ => false) (fun _ => STATUS_SUCCEEDED)
          (fun _ => Found (upright 1 2 0))
          (fun _ => false).

(** As [settled], and the client cancels during the server's [k]-th
    blocking call. *)
Definition cancelled_during (k : nat) : World :=
  mkWorld (fun _ => true) (fun _ => STATUS_SUCCEEDED)
          (fun _ => Found (upright 1 2 0))
          (fun i => Nat.eqb i k).

(** The marker is found by the first scan only. *)
Definition marker_lost_later : World :=
  mkWorld (fun k => Nat.eqb k 0) (fun _ => STATUS_SUCCEEDED)
          (fun _ => Found (upright 1 2 0))
          (fun _ => false).

Local Close Scope float_scope.

(** ** Auxiliary notions of the statements *)

(** The mean of [n] copies of [v] as [average_transforms] computes it:
    [v + v + ... + v] from the left, then one division by [n]. *)
Fixpoint add_copies (k : nat) (acc v : float) : float :=
  match k with
  | O => acc
  | S k' => add_copies k' (acc + v)%float v
  end.

Definition mean_of_copies (n : nat) (v : float) : float :=
  (add_copies (pred n) v v / float_of_len n)%float.

(** What stays of an object when only its [x] and [y] are written. *)
Definition same_rest (t t' : TransformStamped) : Prop :=
  tz t' = tz t /\ trot t' = trot t /\ frame_id t' = frame_id t
  /\ child_frame_id t' = child_frame_id t.


(** The differences [calculate_diff] squares. *)
Definition delta_x (t1 t2 : TransformStamped) : float := (tx t1 - tx t2)%float.
Definition delta_y (t1 t2 : TransformStamped) : float := (ty t1 - ty t2)%float.
Definition delta_yaw `{TF : Transformations} (t1 t2 : TransformStamped)
    : float :=
  (angle_2 (euler_from_quaternion (trot t1))
   - angle_2 (euler_from_quaternion (trot t2)))%float.

(** Whether the correctly rounded square of a finite [a] is infinite. *)
Definition square_overflows (a : float) : bool :=
  is_finite a && is_infinity (a * a)%float.

(** The bases at which [a ** 2] does not call the platform's [pow]. *)
Definition special (a : float) : bool :=
  is_nan a || is_infinity a || (a =? 0)%float
  || (PrimFloat.abs a =? 1)%float.

(** The spec's formula, [sqrt(dx^2 + dy^2 + dyaw^2)], with correctly
    rounded binary64 products, sums and square root. *)
Definition diff_formula (dx dy dyaw : float) : float :=
  PrimFloat.sqrt (dx * dx + dy * dy + dyaw * dyaw)%float.

(** Stores of the scenarios: three different samples, three equal ones
    (three objects), ten equal ones. *)
Definition three_samples : store :=
  fst (alloc [sample 1 1 5; sample 2 2 5; sample 3 3 5]).

Definition three_copies (x y z : float) : store :=
  fst (alloc (replicate 3 (sample x y z))).

(** ** Reasoning about runs *)

(** What [cancel_goals] calls. *)
Definition cancel_goals_calls : list event :=
  [HeadScanCancelAll; MoveBaseCancelAll; SetPreempted].

(** The state a blocking call returns in. *)
Definition after_blocking (w : World) (s : St) : St :=
  mkSt (num_tries s) (max_tries s) (aruco_name s) (relative_pose s)
    (map_to_aruco s) (relative_pose_tf s)
    (preempt_request s || cancel_arrives w (n_blocking s))
    (S (n_blocking s)) (n_scans s) (n_lookups s) (n_navs s)
    (trace s ++ if cancel_arrives w (n_blocking s)
                then cancel_goals_calls else []).

(** A run stops (it does not exhaust its depth), in a state where [Q]. *)
Definition ends {A} (r : res A) (Q : St -> Prop) : Prop :=
  match r with
  | Ok _ s' => Q s'
  | Raise _ s' => Q s'
  | OutOfFuel => False
  end.

(** The attempt counter, its limit, its history and the number of
    navigation goals sent. *)
Definition counters (s : St) : Z * Z * list Z * nat :=
  (num_tries s, max_tries s, tries_history (trace s),
   navigation_attempts (trace s)).

(** A statement that leaves the counters alone. *)
Definition keeps {A} (m : M A) : Prop :=
  forall s, ends (m s) (fun s' => counters s' = counters s).

(** The values the counter may still take from [n] on: [n+1], ..., 3,
    then the reset to 0. *)
Definition countdown (n : Z) : list Z :=
  map Z.of_nat (seq (S (Z.to_nat n)) (3 - Z.to_nat n)) ++ [0%Z].

Definition increments (l : list Z) : nat :=
  length (filter (fun v => v <> 0%Z) l).

(** From counters [c] a run got to counters [c']: the limit is the same,
    the counter went through a prefix of [countdown], and no more
    navigation goals were sent than the counter was incremented. *)
Definition cycles_from (c c' : Z * Z * list Z * nat) : Prop :=
  c'.1.1.2 = c.1.1.2
  /\ exists suffix,
       c'.1.2 = c.1.2 ++ suffix
       /\ suffix `prefix_of` countdown c.1.1.1
       /\ c'.1.1.1 = default c.1.1.1 (last suffix)
       /\ c'.2 <= c.2 + increments suffix.

(** The state [s] after calls that assigned [tries], [m2a] and [rptf] to
    [num_tries], [map_to_aruco] and [relative_pose_tf], used up that many
    answers of the world and made the calls [calls]. *)
Definition advance (s : St) (tries : Z)
    (m2a rptf : option TransformStamped)
    (blocked scans lookups navs : nat) (calls : list event) : St :=
  mkSt tries (max_tries s) (aruco_name s) (relative_pose s) m2a rptf
    (preempt_request s)
    (blocked + n_blocking s) (scans + n_scans s) (lookups + n_lookups s)
    (navs + n_navs s) (trace s ++ calls).

(** What a client of the action sees: feedback and terminal calls. *)
Definition is_report (e : event) : bool :=
  match e with
  | PublishFeedback _ _ | SetAborted | SetSucceeded | SetPreempted => true
  | _ => false
  end.

Definition reports (tr : list event) : list event :=
  filter (fun e => is_report e = true) tr.

(** The calls made after the last navigation goal was sent. *)
Fixpoint after_last_navigation (tr : list event) : list event :=
  match tr with
  | [] => []
  | e :: tr' =>
      if existsb is_move_base_goal tr' then after_last_navigation tr'
      else if is_move_base_goal e then tr' else e :: tr'
  end.

(** The feedback published last before the goal left the active state. *)
Fixpoint feedback_at_end (last_feedback : option (string * string))
    (tr : list event) : option (string * string) :=
  match tr with
  | [] => None
  | PublishFeedback state alert :: tr' =>
      feedback_at_end (Some (state, alert)) tr'
  | e :: tr' =>
      match terminal_of e with
      | Some _ => last_feedback
      | None => feedback_at_end last_feedback tr'
      end
  end.

(** The first calls of [navigate_to_marker] when no cancellation is
    pending, [relative_pose] is [pose] and [aruco_name] is [name]. *)
Definition cycle_start (s : St) (name : string) (pose : Transform)
    : list event :=
  [IsPreemptRequested false;
   NumTries (num_tries s + 1);
   SendTransform (broadcast_tf pose "relative_pose" name);
   PublishFeedback "Navigating to marker..." "info"].

(** The [k] lookups of the sampling loop. *)
Definition sampling (k : nat) : list event :=
  replicate k (LookupTransform "map" "relative_pose").

(** The samples the lookups answering [p 0], ..., [p (k - 1)] give. *)
Definition samples_of (p : nat -> Transform) (k : nat)
    : list TransformStamped :=
  map (fun i => mkTransformStamped "map" "relative_pose" (p i)) (seq 0 k).

(** The first calls of [move_base_aruco_callback] up to the new estimate
    of the marker [name], when no cancellation is pending and the marker
    is found. *)
Definition rescan (name : string) : list event :=
  [IsPreemptRequested false; Sleep; HeadScanGoal name;
   HeadScanGetResult true; LookupTransform "map" name].

(** [self.feedback] of a success, published, and [set_succeeded()]. *)
Definition report_success : M unit :=
  (publish_feedback "Navigation succeeded!" "success";;
   set_succeeded)%py.

(** The [j]-th estimate of the marker's pose in the world, in a request
    for [name] whose lookups all succeed and answer [p 0], [p 1], ...:
    lookups 0 and 1 are those of [execute_callback] (1 is the first
    estimate), and each cycle then makes ten lookups for its samples and
    one for the next estimate. *)
Definition marker_estimate (p : nat -> Transform) (name : string) (j : nat)
    : TransformStamped :=
  mkTransformStamped "map" name (p (1 + 11 * j)).

(** ** Auxiliary notions: the rest of the code *)

(** The mean of [v :: vs] as the loop of [average_transforms] computes
    it: the values added from the left, then one division by their
    number. *)
Definition float_mean (v : float) (vs : list float) : float :=
  (fold_left PrimFloat.add vs v / float_of_len (S (length vs)))%float.

(** The yaw [average_transforms] extracts from a sample. *)
Definition yaw_of `{TF : Transformations} (t : TransformStamped) : float :=
  angle_2 (euler_from_quaternion (trot t)).

(** From a state whose [preempt_request] flag is [flag_ok], the
    statement [m], if it ends, has added to the trace calls that satisfy
    [Q], left the flag [flag_ok] and, when it returns, returned a value
    that satisfies [V]. *)
Definition emits (flag_ok : bool -> Prop) (Q : list event -> Prop)
    {A} (m : M A) (V : A -> Prop) : Prop :=
  forall s, flag_ok (preempt_request s) ->
    match m s with
    | Ok a s' =>
        V a /\ flag_ok (preempt_request s')
        /\ exists calls, trace s' = trace s ++ calls /\ Q calls
    | Raise _ s' =>
        flag_ok (preempt_request s')
        /\ exists calls, trace s' = trace s ++ calls /\ Q calls
    | OutOfFuel => True
    end.

(** The calls that are neither about a cancellation, nor a terminal
    call with its feedback, nor a navigation goal. *)
Definition routine (e : event) : bool :=
  match e with
  | NumTries _ | HeadScanGoal _ | HeadScanGetResult _ | LookupTransform _ _
  | SendTransform _ | Sleep => true
  | PublishFeedback state alert =>
      (String.eqb state "Scanning for marker..."
       || String.eqb state "Navigating to marker...")
      && String.eqb alert "info"
  | _ => false
  end.

(** A navigation goal is expressed in the frame "map", lies in the plane
    [z = 0] and is rotated about the vertical axis only. *)
Definition planar_goal `{TF : Transformations} (e : event) : Prop :=
  match e with
  | MoveBaseGoal frame pose =>
      frame = "map"
      /\ v_z (position pose) = 0%float
      /\ exists yaw,
           orientation pose = quaternion_from_euler 0%float 0%float yaw
  | _ => True
  end.

(** Every [set_aborted] of the trace directly follows a feedback of
    class "error", every [set_succeeded] one of class "success"; [prev]
    is the call made before the trace. *)
Fixpoint announced_from (prev : option event) (tr : list event) : Prop :=
  match tr with
  | [] => True
  | e :: tr' =>
      match e with
      | SetAborted => exists state, prev = Some (PublishFeedback state "error")
      | SetSucceeded =>
          exists state, prev = Some (PublishFeedback state "success")
      | _ => True
      end
      /\ announced_from (Some e) tr'
  end.

Definition announced (tr : list event) : Prop := announced_from None tr.

(** The calls that belong to a cancellation: those of [cancel_goals], a
    positive answer of [is_preempt_requested] and the feedback of
    [preempt_callback]. *)
Definition cancellation_call (e : event) : bool :=
  match e with
  | HeadScanCancelAll | MoveBaseCancelAll | SetPreempted
  | IsPreemptRequested true => true
  | PublishFeedback state _ => String.eqb state "Aruco navigation cancelled!"
  | _ => false
  end.

(** The state in which [execute_callback] starts. *)
Definition accepted (s : St) : St :=
  mkSt (num_tries s) (max_tries s) (aruco_name s) (relative_pose s)
    (map_to_aruco s) (relative_pose_tf s) false 0 0 0 0 [].

(** * Pose averaging *)

Section PoseAveragingFacts.
Context `{TF : Transformations}.

Lemma same_rest_xy (t t' : TransformStamped) (x y : float) :
  same_rest t t' -> same_rest t (set_ty y (set_tx x t')).
Proof. unfold same_rest. cbn. tauto. Qed.

Lemma same_rest_refl (t : TransformStamped) : same_rest t t.
Proof. unfold same_rest. tauto. Qed.

Lemma average_transforms_loop_frame (trans : loc) (rest : list loc) :
  forall (h : store) (angle : float) (t : TransformStamped),
    h !! trans = Some t ->
    (forall l, l ∈ rest -> is_Some (h !! l)) ->
    exists h' angle' t',
      average_transforms_loop trans rest h angle = Some (h', angle')
      /\ h' !! trans = Some t'
      /\ same_rest t t'
      /\ forall l, l <> trans -> h' !! l = h !! l.
Proof.
  induction rest as [|ti rest IH]; intros h angle t Ht Hrest.
  - exists h, angle, t. cbn. eauto using same_rest_refl.
  - destruct (Hrest ti) as [s Hs]; [left|].
    assert (Hstep : forall x y a2,
               let h2 := <[trans:=set_ty y (set_tx x t)]>
                           (<[trans:=set_tx x t]> h) in
               exists h' angle' t',
                 average_transforms_loop trans rest h2 a2 = Some (h', angle')
                 /\ h' !! trans = Some t'
                 /\ same_rest t t'
                 /\ forall l, l <> trans -> h' !! l = h !! l).
    { intros x y a2 h2.
      destruct (IH h2 a2 (set_ty y (set_tx x t)))
        as (h' & angle' & t' & Hrun & Hlook & Hsame & Hfr).
      - apply lookup_insert_eq.
      - intros l Hl. destruct (decide (l = trans)) as [->|Hne].
        + unfold h2. by rewrite lookup_insert_eq.
        + unfold h2. rewrite !lookup_insert_ne by done. apply Hrest. by right.
      - exists h', angle', t'. split; [exact Hrun|]. split; [exact Hlook|].
        split.
        + unfold same_rest in *. cbn in *. tauto.
        + intros l Hl. rewrite Hfr by done. unfold h2.
          by rewrite !lookup_insert_ne. }
    cbn [average_transforms_loop]. rewrite Ht, Hs. cbn.
    rewrite lookup_insert_eq. cbn.
    destruct (decide (ti = trans)) as [->|Hne].
    + repeat (rewrite lookup_insert_eq; cbn). apply Hstep.
    + rewrite (lookup_insert_ne h) by done. rewrite Hs. cbn.
      rewrite lookup_insert_ne by done.
      rewrite (lookup_insert_ne h) by done. rewrite Hs. cbn.
      apply Hstep.
Qed.

Lemma average_transforms_loop_copies (trans : loc) (s : TransformStamped)
    (rest : list loc) :
  forall (h : store) (angle : float) (t : TransformStamped),
    trans ∉ rest ->
    h !! trans = Some t ->
    (forall l, l ∈ rest -> h !! l = Some s) ->
    exists h' t',
      average_transforms_loop trans rest h angle
        = Some (h', add_copies (length rest) angle
                      (angle_2 (euler_from_quaternion (trot s))))
      /\ h' !! trans = Some t'
      /\ tx t' = add_copies (length rest) (tx t) (tx s)
      /\ ty t' = add_copies (length rest) (ty t) (ty s)
      /\ same_rest t t'.
Proof.
  induction rest as [|ti rest IH]; intros h angle t Hnotin Ht Hrest.
  - exists h, t. cbn. unfold same_rest. eauto 10.
  - apply not_elem_of_cons in Hnotin as [Hne Hnotin].
    assert (Hs : h !! ti = Some s) by (apply Hrest; left).
    cbn [average_transforms_loop]. rewrite Ht, Hs. cbn.
    rewrite lookup_insert_eq. cbn.
    rewrite (lookup_insert_ne h) by done. rewrite Hs. cbn.
    rewrite lookup_insert_ne by done.
    rewrite (lookup_insert_ne h) by done. rewrite Hs. cbn.
    edestruct (IH (<[trans:=set_ty (ty t + ty s) (set_tx (tx t + tx s) t)]>
                     (<[trans:=set_tx (tx t + tx s) t]> h)))
      as (h' & t' & Hrun & Hlook & Hx & Hy & Hz & Hq & Hf & Hc);
      [exact Hnotin | apply lookup_insert_eq | |].
    { intros l Hl. rewrite !lookup_insert_ne by (intros ->; done).
      apply Hrest. by right. }
    exists h', t'. split; [exact Hrun|]. split; [exact Hlook|].
    unfold same_rest. cbn in *. eauto 10.
Qed.

Lemma held_after_insert (h : store) (trans : loc) (x : TransformStamped)
    (rest : list loc) (others : list TransformStamped) :
  trans ∉ rest ->
  Forall2 (fun l t => h !! l = Some t) rest others ->
  Forall2 (fun l t => <[trans:=x]> h !! l = Some t) rest others.
Proof.
  intros Hnotin Hheld. induction Hheld as [|l t rest others Hl _ IH].
  - constructor.
  - apply not_elem_of_cons in Hnotin as [Hne Hnotin].
    constructor; [|by apply IH].
    by rewrite lookup_insert_ne.
Qed.

Lemma average_transforms_loop_sums (trans : loc) (rest : list loc) :
  forall (others : list TransformStamped) (h : store) (angle : float)
         (t : TransformStamped),
    trans ∉ rest ->
    h !! trans = Some t ->
    Forall2 (fun l v => h !! l = Some v) rest others ->
    exists h' t',
      average_transforms_loop trans rest h angle
        = Some (h', fold_left PrimFloat.add (yaw_of <$> others) angle)
      /\ h' !! trans = Some t'
      /\ tx t' = fold_left PrimFloat.add (tx <$> others) (tx t)
      /\ ty t' = fold_left PrimFloat.add (ty <$> others) (ty t)
      /\ same_rest t t'
      /\ forall l, l <> trans -> h' !! l = h !! l.
Proof.
  induction rest as [|ti rest IH]; intros others h angle t Hnotin Ht Hheld.
  - apply Forall2_nil_inv_l in Hheld as ->.
    exists h, t. cbn. eauto 10 using same_rest_refl.
  - apply Forall2_cons_inv_l in Hheld as (s & others' & Hs & Hheld & ->).
    apply not_elem_of_cons in Hnotin as [Hne Hnotin].
    cbn [average_transforms_loop]. rewrite Ht, Hs. cbn.
    rewrite lookup_insert_eq. cbn.
    rewrite (lookup_insert_ne h) by done. rewrite Hs. cbn.
    rewrite lookup_insert_ne by done.
    rewrite (lookup_insert_ne h) by done. rewrite Hs. cbn.
    edestruct (IH others'
                 (<[trans:=set_ty (ty t + ty s) (set_tx (tx t + tx s) t)]>
                    (<[trans:=set_tx (tx t + tx s) t]> h)))
      as (h' & t' & Hrun & Hlook & Hx & Hy & Hsame & Hfr);
      [exact Hnotin | apply lookup_insert_eq | |].
    { apply held_after_insert; [done|]. by apply held_after_insert. }
    exists h', t'. split; [exact Hrun|]. split; [exact Hlook|].
    split; [exact Hx|]. split; [exact Hy|]. split.
    + unfold same_rest in *. cbn in *. tauto.
    + intros l Hl. rewrite Hfr by done. by rewrite !lookup_insert_ne.
Qed.

End PoseAveragingFacts.

(** * Python's square *)

Lemma float_of_SF (a : float) (x : spec_float) :
  Prim2SF a = x -> a = SF2Prim x.
Proof. intros <-. by rewrite SF2Prim_Prim2SF. Qed.

Lemma special_values (a : float) :
  special a = true ->
  a = nan \/ a = infinity \/ a = neg_infinity \/ a = 0%float
  \/ a = (-0)%float \/ a = 1%float \/ a = (-1)%float.
Proof.
  unfold special, is_infinity, is_nan.
  rewrite !FloatAxioms.eqb_spec, ?FloatAxioms.abs_spec.
  pose proof (float_of_SF a _ eq_refl) as Ha.
  destruct (Prim2SF a) as [s|s| |s m e] eqn:E.
  - intros _. subst a. destruct s; vm_compute; tauto.
  - intros _. subst a. destruct s; vm_compute; tauto.
  - intros _. subst a. vm_compute; tauto.
  - change (Prim2SF 1) with (S754_finite false 4503599627370496 (-52)).
    change (Prim2SF infinity) with (S754_infinity false).
    change (Prim2SF 0) with (S754_zero false).
    cbn [SFabs SFeqb SFcompare].
    rewrite Z.compare_refl, Pos.compare_cont_refl.
    intros H.
    replace (if s then if s then CompOpp Eq else Lt else if s then Gt else Eq)
      with Eq in H by (by destruct s).
    assert (Hm : match (e ?= -52)%Z with
                 | Eq => Pos.compare_cont Eq m 4503599627370496
                 | Lt => Lt
                 | Gt => Gt
                 end = Eq).
    { destruct s; cbv beta iota delta [negb orb] in H;
        by destruct (match (e ?= -52)%Z with
                     | Eq => _ | Lt => Lt | Gt => Gt
                     end). }
    clear H.
    destruct (Z.compare_spec e (-52)) as [->|?|?]; try discriminate.
    rewrite Pos.compare_cont_spec in Hm.
    destruct (Pos.compare_spec m 4503599627370496) as [->|?|?];
      try discriminate.
    subst a. destruct s; vm_compute; tauto.
Qed.

Lemma pow2_correctly_rounded `{LM : Libm} (a : float) :
  (special a = false -> libm_pow (PrimFloat.abs a) 2 = (a * a)%float) ->
  pow2 a = if square_overflows a then None else Some (a * a)%float.
Proof.
  intros Hpow. destruct (special a) eqn:Hsp.
  - apply special_values in Hsp.
    destruct Hsp as [->|[->|[->|[->|[->|[->| ->]]]]]]; vm_compute; reflexivity.
  - specialize (Hpow eq_refl). unfold special in Hsp.
    apply orb_false_iff in Hsp as [Hsp H1].
    apply orb_false_iff in Hsp as [Hsp H0].
    apply orb_false_iff in Hsp as [Hnan Hinf].
    unfold pow2, square_overflows, is_finite.
    by rewrite Hnan, Hinf, H0, H1, Hpow.
Qed.

Section PoseAveragingTheorems.
Context `{TF : Transformations} `{LM : Libm}.

Lemma average_transforms_first (h : store) (transforms : list loc) :
  transforms <> [] ->
  (forall l, l ∈ transforms -> is_Some (h !! l)) ->
  exists h' trans avg,
    average_transforms h transforms = Some (h', trans)
    /\ head transforms = Some trans
    /\ h' !! trans = Some avg
    /\ tz avg = 0%float
    /\ forall l, l <> trans -> h' !! l = h !! l.
Proof.
  intros Hne Hlive. destruct transforms as [|trans rest]; [done|].
  destruct (Hlive trans) as [t Ht]; [left|].
  unfold average_transforms. cbn. rewrite Ht. cbn.
  rewrite lookup_insert_eq. cbn.
  destruct (average_transforms_loop_frame trans rest
              (<[trans:=set_tz 0 t]> h)
              (angle_2 (euler_from_quaternion (trot t)))
              (set_tz 0 t))
    as (h1 & a1 & t1 & Hrun & Ht1 & Hsame & Hfr).
  { by rewrite lookup_insert_eq. }
  { intros l Hl. destruct (decide (l = trans)) as [->|Hl'].
    - by rewrite lookup_insert_eq.
    - rewrite lookup_insert_ne by done. apply Hlive. by right. }
  rewrite Hrun. cbn. rewrite Ht1. cbn.
  repeat (rewrite lookup_insert_eq; cbn).
  eexists _, trans, _. split; [reflexivity|]. split; [reflexivity|].
  split; [apply lookup_insert_eq|]. split.
  - cbn. by destruct Hsame as [-> _].
  - intros l Hl. rewrite !lookup_insert_ne by done.
    rewrite Hfr by done. by rewrite lookup_insert_ne.
Qed.

(** C3, as amended: [average_transforms] is not pure.  On a non-empty
    list of live references it returns the reference [transforms[0]]
    itself and leaves every object other than that one unchanged.  It
    has accumulated into that object, which afterwards holds the result:
    [z = 0], its own frame ids, the orientation
    [quaternion_from_euler(0, 0, a)] and, when the first object is not
    listed again, in [x], [y] and [a] the means of the samples' [x], [y]
    and yaw (added from the left in list order, divided by their
    number). *)
Theorem average_transforms_overwrites_first (h : store) (trans : loc)
    (rest : list loc) (first : TransformStamped)
    (others : list TransformStamped) :
  h !! trans = Some first ->
  Forall2 (fun l t => h !! l = Some t) rest others ->
  exists h' avg,
    average_transforms h (trans :: rest) = Some (h', trans)
    /\ h' !! trans = Some avg
    /\ (forall l, l <> trans -> h' !! l = h !! l)
    /\ tz avg = 0%float
    /\ frame_id avg = frame_id first
    /\ child_frame_id avg = child_frame_id first
    /\ (exists a, trot avg = quaternion_from_euler 0%float 0%float a)
    /\ (trans ∉ rest ->
        tx avg = float_mean (tx first) (tx <$> others)
        /\ ty avg = float_mean (ty first) (ty <$> others)
        /\ trot avg =
             quaternion_from_euler 0%float 0%float
               (float_mean (yaw_of first) (yaw_of <$> others))).
Proof.
  intros Hfirst Hheld.
  assert (Hlive : forall l,
             l ∈ rest -> is_Some (<[trans:=set_tz 0 first]> h !! l)).
  { intros l Hl. destruct (decide (l = trans)) as [->|Hne].
    - by rewrite lookup_insert_eq.
    - rewrite lookup_insert_ne by done.
      apply list_elem_of_lookup in Hl as [i Hi].
      destruct (Forall2_lookup_l _ _ _ _ _ Hheld Hi) as (t & _ & Ht).
      by exists t. }
  unfold average_transforms. cbn [head tail mbind option_bind].
  rewrite Hfirst. cbn. rewrite lookup_insert_eq. cbn.
  destruct (average_transforms_loop_frame trans rest
              (<[trans:=set_tz 0 first]> h)
              (angle_2 (euler_from_quaternion (trot first)))
              (set_tz 0 first))
    as (h1 & a1 & t1 & Hrun & Ht1 & (Hz & Hq & Hf & Hc) & Hfr);
    [apply lookup_insert_eq|exact Hlive|].
  rewrite Hrun. cbn. rewrite Ht1. cbn.
  repeat (rewrite lookup_insert_eq; cbn).
  eexists _, _. split; [reflexivity|].
  split; [apply lookup_insert_eq|].
  split.
  { intros l Hl. rewrite !lookup_insert_ne by done.
    rewrite Hfr by done. by rewrite lookup_insert_ne. }
  split; [exact Hz|]. split; [exact Hf|]. split; [exact Hc|].
  split; [by eexists|].
  intros Hnotin.
  destruct (average_transforms_loop_sums trans rest others
              (<[trans:=set_tz 0 first]> h)
              (angle_2 (euler_from_quaternion (trot first)))
              (set_tz 0 first))
    as (h2 & t2 & Hrun' & Ht2 & Hx & Hy & _);
    [exact Hnotin|apply lookup_insert_eq|by apply held_after_insert|].
  rewrite Hrun in Hrun'. injection Hrun' as <- ->.
  rewrite Ht1 in Ht2. injection Ht2 as <-.
  assert (Hlen : forall f : TransformStamped -> float,
             length (f <$> others) = length rest).
  { intros f. rewrite length_fmap. symmetry. by eapply Forall2_length. }
  unfold float_mean, yaw_of, float_of_len, set_trot, set_ty, set_tx, set_tz,
    tx, ty, tz, trot in *.
  rewrite !Hlen. cbn in *. by rewrite Hx, Hy.
Qed.

Lemma averaged_total (samples : list TransformStamped) :
  samples <> [] -> exists avg, averaged samples = Some avg.
Proof.
  intros Hne. unfold averaged, alloc.
  destruct (average_transforms_first (map_seq 0 samples)
              (seq 0 (length samples)))
    as (h' & trans & avg & Hrun & _ & Havg & _).
  - destruct samples; [done|discriminate].
  - intros l [_ Hl]%elem_of_seq. rewrite lookup_map_seq_0.
    apply lookup_lt_is_Some. lia.
  - exists avg. rewrite Hrun. exact Havg.
Qed.

(** C8, as amended: over [N >= 1] different objects that hold one and the
    same pose, [average_transforms] returns the first object, now holding
    [z = 0], the orientation [quaternion_from_euler(0, 0, a)] and the
    translation [(mx, my)], where [a], [mx], [my] are the binary64 means
    of [N] copies of the input's yaw, [x] and [y]: the copies added from
    the left, then one division by [N].  They equal the input's yaw, [x]
    and [y] when that rounded arithmetic is exact, not for every [N]. *)
Theorem average_of_identical_samples (h : store) (transforms : list loc)
    (s : TransformStamped) :
  transforms <> [] ->
  NoDup transforms ->
  (forall l, l ∈ transforms -> h !! l = Some s) ->
  exists h' trans,
    average_transforms h transforms = Some (h', trans)
    /\ h' !! trans =
         Some (mkTransformStamped (frame_id s) (child_frame_id s)
                 (mkTransform
                    (mkVector3 (mean_of_copies (length transforms) (tx s))
                               (mean_of_copies (length transforms) (ty s))
                               0%float)
                    (quaternion_from_euler 0%float 0%float
                       (mean_of_copies (length transforms)
                          (angle_2 (euler_from_quaternion (trot s))))))).
Proof.
  intros Hne Hdup Hall. destruct transforms as [|trans rest]; [done|].
  apply NoDup_cons in Hdup as [Hnotin _].
  assert (Ht : h !! trans = Some s) by (apply Hall; left).
  unfold average_transforms. cbn [head tail mbind option_bind].
  rewrite Ht. cbn. rewrite lookup_insert_eq. cbn.
  destruct (average_transforms_loop_copies trans s rest
              (<[trans:=set_tz 0 s]> h)
              (angle_2 (euler_from_quaternion (trot s)))
              (set_tz 0 s))
    as (h1 & t1 & Hrun & Ht1 & Hx & Hy & Hz & Hq & Hf & Hc).
  { exact Hnotin. }
  { apply lookup_insert_eq. }
  { intros l Hl. rewrite lookup_insert_ne by (intros ->; done).
    apply Hall. by right. }
  rewrite Hrun. cbn. rewrite Ht1. cbn.
  repeat (rewrite lookup_insert_eq; cbn).
  eexists _, trans. split; [reflexivity|].
  rewrite lookup_insert_eq.
  unfold mean_of_copies, float_of_len, set_trot, set_ty, set_tx, set_tz,
    tx, ty, tz, trot in *.
  cbn in *. by rewrite Hx, Hy, Hz, Hf, Hc.
Qed.

(** C7: [calculate_diff] returns the square root of the sum of the
    squares of the [x], [y] and yaw differences, the yaw difference being
    the plain difference of the two extracted yaws and a square being
    Python's [d ** 2].  Where the platform's [pow] is correctly rounded
    at the three differences, that is [sqrt(dx*dx + dy*dy + dyaw*dyaw)]
    in binary64 arithmetic (and an [OverflowError] when a square
    overflows).  A difference of [(0.1, 0)] with equal yaws gives [0.1],
    above the threshold 0.075, and a difference of [(0.05, 0)] gives
    [0.05], not above it, with every [pow] that is within one ulp of the
    exact square there. *)
Theorem calculate_diff_formula (t1 t2 : TransformStamped) :
  (forall d, calculate_diff t1 t2 = inr d ->
     exists sx sy syaw,
       pow2 (delta_x t1 t2) = Some sx
       /\ pow2 (delta_y t1 t2) = Some sy
       /\ pow2 (delta_yaw t1 t2) = Some syaw
       /\ d = sqrt (sx + sy + syaw)%float)
  /\ ((forall d,
         d = delta_x t1 t2 \/ d = delta_y t1 t2 \/ d = delta_yaw t1 t2 ->
         special d = false ->
         libm_pow (PrimFloat.abs d) 2 = (d * d)%float) ->
      calculate_diff t1 t2 =
        if square_overflows (delta_x t1 t2)
           || square_overflows (delta_y t1 t2)
           || square_overflows (delta_yaw t1 t2)
        then inl OverflowError
        else inr (diff_formula (delta_x t1 t2) (delta_y t1 t2)
                    (delta_yaw t1 t2)))
  /\ (delta_x t1 t2 = 0.1%float -> delta_y t1 t2 = 0%float ->
      delta_yaw t1 t2 = 0%float ->
      libm_pow 0.1 2 = 0.01%float
      \/ libm_pow 0.1 2 = 0.010000000000000002%float ->
      calculate_diff t1 t2 = inr 0.1%float
      /\ exceeds_threshold 0.1 = true)
  /\ (delta_x t1 t2 = 0.05%float -> delta_y t1 t2 = 0%float ->
      delta_yaw t1 t2 = 0%float ->
      libm_pow 0.05 2 = 0.0025%float
      \/ libm_pow 0.05 2 = 0.0025000000000000005%float ->
      calculate_diff t1 t2 = inr 0.05%float
      /\ exceeds_threshold 0.05 = false).
Proof.
  unfold calculate_diff.
  fold (delta_x t1 t2) (delta_y t1 t2) (delta_yaw t1 t2).
  split; [|split; [|split]].
  - intros d Hd.
    destruct (pow2 (delta_x t1 t2)) as [sx|]; [|discriminate].
    destruct (pow2 (delta_y t1 t2)) as [sy|]; [|discriminate].
    destruct (pow2 (delta_yaw t1 t2)) as [syaw|]; [|discriminate].
    injection Hd as <-. by exists sx, sy, syaw.
  - intros Hpow.
    rewrite !pow2_correctly_rounded by (apply Hpow; tauto).
    unfold diff_formula.
    destruct (square_overflows (delta_x t1 t2)); [done|].
    destruct (square_overflows (delta_y t1 t2)); [done|].
    by destruct (square_overflows (delta_yaw t1 t2)).
  - intros -> -> -> Hpow. unfold pow2. cbn.
    destruct Hpow as [-> | ->]; split; vm_compute; reflexivity.
  - intros -> -> -> Hpow. unfold pow2. cbn.
    destruct Hpow as [-> | ->]; split; vm_compute; reflexivity.
Qed.

End PoseAveragingTheorems.

(** C3, witness: the three different samples at [(1, 1, 5)],
    [(2, 2, 5)] and [(3, 3, 5)]. *)
Lemma average_transforms_overwrites_first_witness :
  exists h' avg,
    average_transforms (TF := tf_at_identity) three_samples [0; 1; 2]
      = Some (h', 0)
    /\ h' !! 0 = Some avg
    /\ (forall l, l <> 0 -> h' !! l = three_samples !! l)
    /\ tz avg = 0%float
    /\ tx avg = float_mean 1 [2; 3]%float
    /\ ty avg = float_mean 1 [2; 3]%float.
Proof.
  destruct (average_transforms_overwrites_first (TF := tf_at_identity)
              three_samples 0 [1; 2] (sample 1 1 5)
              [sample 2 2 5; sample 3 3 5])
    as (h' & avg & Hrun & Hlook & Hfr & Hz & _ & _ & _ & Hmean).
  - reflexivity.
  - repeat constructor.
  - destruct Hmean as (Hx & Hy & _).
    { intros Hin.
      repeat (apply elem_of_cons in Hin as [Hin|Hin]; [discriminate|]).
      by apply elem_of_nil in Hin. }
    exists h', avg. repeat split; assumption.
Defined.

(** C3, counterexample: of the samples at [(1, 1, 5)], [(2, 2, 5)] and
    [(3, 3, 5)] the first, and only the first, is overwritten: after the
    call it is at [(2, 2, 0)]. *)
Lemma average_transforms_mutates_first :
  three_samples !! 0 = Some (sample 1 1 5)
  /\ (average_transforms (TF := tf_at_identity) three_samples [0; 1; 2]
        ≫= fun r => fst r !! 0) = Some (sample 2 2 0).
Proof. split; vm_compute; reflexivity. Qed.

(** C8, witness: three objects at [(0.5, 0.25, 7)], whose means are
    exact: the result is at [(0.5, 0.25, 0)]. *)
Lemma average_of_identical_samples_witness :
  exists h' trans,
    average_transforms (TF := tf_at_identity)
      (three_copies 0.5 0.25 7) [0; 1; 2] = Some (h', trans)
    /\ h' !! trans =
         Some (mkTransformStamped "map" "relative_pose"
                 (mkTransform
                    (mkVector3 0.5%float 0.25%float 0%float)
                    (mkQuaternion 0 0 0 1))).
Proof.
  apply (average_of_identical_samples (TF := tf_at_identity)
           (three_copies 0.5 0.25 7) [0; 1; 2] (sample 0.5 0.25 7)).
  - discriminate.
  - repeat (apply NoDup_cons; split;
            [intros Hin; repeat (apply elem_of_cons in Hin as [Hin|Hin];
                                 [discriminate|]);
             by apply elem_of_nil in Hin|]).
    apply NoDup_nil_2.
  - intros l Hl.
    repeat (apply elem_of_cons in Hl as [->|Hl]; [reflexivity|]).
    by apply elem_of_nil in Hl.
Defined.

(** C8, counterexample: three objects at [(0.1, 0.1, 5)] average to
    [x = y = 0.10000000000000002], which is not the input's [0.1]. *)
Lemma average_of_identical_samples_rounds :
  (average_transforms (TF := tf_at_identity) (three_copies 0.1 0.1 5) [0; 1; 2]
     ≫= fun r => fst r !! 0)
    = Some (sample 0.10000000000000002 0.10000000000000002 0)
  /\ (0.10000000000000002 =? 0.1)%float = false.
Proof. split; vm_compute; reflexivity. Qed.

(** C7, witness: from the origin to [(0.1, 0)] and to [(0.05, 0)]. *)
Lemma calculate_diff_formula_witness :
  (calculate_diff (TF := tf_at_identity) (LM := correctly_rounded)
     (sample 0.1 0 0) (sample 0 0 0) = inr 0.1%float
   /\ exceeds_threshold 0.1 = true)
  /\ (calculate_diff (TF := tf_at_identity) (LM := correctly_rounded)
        (sample 0.05 0 0) (sample 0 0 0) = inr 0.05%float
      /\ exceeds_threshold 0.05 = false).
Proof.
  split.
  - apply (calculate_diff_formula (TF := tf_at_identity)
             (LM := correctly_rounded) (sample 0.1 0 0) (sample 0 0 0));
      try reflexivity.
    right. reflexivity.
  - apply (calculate_diff_formula (TF := tf_at_identity)
             (LM := correctly_rounded) (sample 0.05 0 0) (sample 0 0 0));
      try reflexivity.
    right. reflexivity.
Defined.

(** * The retry state machine *)

(** ** Rules for runs *)

Lemma blocking_run (w : World) (s : St) :
  blocking w s = Ok tt (after_blocking w s).
Proof.
  unfold blocking, after_blocking, cancel_goals, set_preempted,
    cancel_goals_calls.
  destruct (cancel_arrives w (n_blocking s)); cbn; unfold emit; cbn.
  - by rewrite <- !app_assoc.
  - by rewrite app_nil_r.
Qed.

Lemma ends_bind {A B} (m : M A) (f : A -> M B) (s : St) (Q : St -> Prop) :
  match m s with
  | Ok a s1 => ends (f a s1) Q
  | Raise _ s1 => Q s1
  | OutOfFuel => False
  end ->
  ends (bind m f s) Q.
Proof. unfold bind. by destruct (m s). Qed.

Lemma ends_bind_keeps {A B} (m : M A) (f : A -> M B) (s : St)
    (P : Z * Z * list Z * nat -> Prop) :
  keeps m ->
  P (counters s) ->
  (forall a s1, counters s1 = counters s ->
     ends (f a s1) (fun s' => P (counters s'))) ->
  ends (bind m f s) (fun s' => P (counters s')).
Proof.
  intros Hm HP Hf. apply ends_bind. specialize (Hm s).
  destruct (m s) as [a s1|e s1|]; cbn in Hm.
  - by apply Hf.
  - by rewrite Hm.
  - done.
Qed.

Lemma ends_keeps {A} (m : M A) (s : St) (P : Z * Z * list Z * nat -> Prop) :
  keeps m -> P (counters s) -> ends (m s) (fun s' => P (counters s')).
Proof.
  intros Hm HP. specialize (Hm s).
  destruct (m s) as [a s1|e s1|]; cbn in *; [by rewrite Hm..|done].
Qed.

Lemma keeps_ret {A} (a : A) : keeps (ret a).
Proof. by intros s. Qed.

Lemma keeps_raise {A} (e : exn) : keeps (raise (A := A) e).
Proof. by intros s. Qed.

Lemma keeps_get {A} (f : St -> A) : keeps (get f).
Proof. by intros s. Qed.

Lemma keeps_bind {A B} (m : M A) (f : A -> M B) :
  keeps m -> (forall a, keeps (f a)) -> keeps (bind m f).
Proof.
  intros Hm Hf s. apply ends_bind. specialize (Hm s).
  destruct (m s) as [a s1|e s1|]; cbn in *; [|done..].
  specialize (Hf a s1). destruct (f a s1); cbn in *; congruence.
Qed.

Lemma keeps_try_except {A} (body handler : M A) :
  keeps body -> keeps handler -> keeps (try_except body handler).
Proof.
  intros Hb Hh s. unfold try_except. specialize (Hb s).
  destruct (body s) as [a s1|e s1|]; cbn in *; [done| |done].
  destruct (caught e); [|done].
  specialize (Hh s1). destruct (handler s1); cbn in *; congruence.
Qed.

Lemma tries_history_app (l k : list event) :
  tries_history (l ++ k) = tries_history l ++ tries_history k.
Proof. apply omap_app. Qed.

Lemma navigation_attempts_app (l k : list event) :
  navigation_attempts (l ++ k) = navigation_attempts l + navigation_attempts k.
Proof. unfold navigation_attempts. by rewrite filter_app, length_app. Qed.

Lemma keeps_emit (e : event) :
  tries_of e = None -> is_move_base_goal e = false -> keeps (emit e).
Proof.
  intros Ht Hm s. unfold emit, ends, counters. cbn [num_tries max_tries trace].
  rewrite tries_history_app, navigation_attempts_app.
  unfold tries_history, navigation_attempts. cbn [omap list_omap].
  rewrite Ht, filter_cons_False by (rewrite Hm; done).
  rewrite filter_nil. cbn [length]. by rewrite app_nil_r, Nat.add_0_r.
Qed.

Lemma keeps_set_goal (g : Goal) : keeps (set_goal g).
Proof. by intros s. Qed.

Lemma keeps_set_map_to_aruco (t : TransformStamped) :
  keeps (set_map_to_aruco t).
Proof. by intros s. Qed.

Lemma keeps_set_relative_pose_tf (t : TransformStamped) :
  keeps (set_relative_pose_tf t).
Proof. by intros s. Qed.

Lemma keeps_count_scan : keeps count_scan.
Proof. by intros s. Qed.

Lemma keeps_count_lookup : keeps count_lookup.
Proof. by intros s. Qed.

Lemma keeps_count_nav : keeps count_nav.
Proof. by intros s. Qed.

Lemma keeps_get_map_to_aruco : keeps get_map_to_aruco.
Proof. intros s. unfold get_map_to_aruco. by destruct (map_to_aruco s). Qed.

Lemma keeps_get_attr {A} (f : St -> option A) : keeps (get_attr f).
Proof. intros s. unfold get_attr. by destruct (f s). Qed.

Create HintDb keeps.
#[local] Hint Resolve keeps_ret keeps_raise keeps_get keeps_set_goal
  keeps_set_map_to_aruco keeps_set_relative_pose_tf keeps_get_map_to_aruco
  keeps_get_attr
  keeps_count_scan keeps_count_lookup keeps_count_nav : keeps.

Ltac keeps_step :=
  first
    [ solve [auto with keeps]
    | apply keeps_emit; reflexivity
    | apply keeps_try_except
    | apply keeps_bind; [|intros ?] ].

Ltac solve_keeps := repeat keeps_step.

Lemma keeps_publish_feedback (st al : string) : keeps (publish_feedback st al).
Proof. unfold publish_feedback. solve_keeps. Qed.

Lemma keeps_set_aborted : keeps set_aborted.
Proof. unfold set_aborted. solve_keeps. Qed.

Lemma keeps_set_succeeded : keeps set_succeeded.
Proof. unfold set_succeeded. solve_keeps. Qed.

Lemma keeps_is_preempt_requested : keeps is_preempt_requested.
Proof. unfold is_preempt_requested. solve_keeps. Qed.

Lemma keeps_preempt_callback : keeps preempt_callback.
Proof. unfold preempt_callback, publish_feedback. solve_keeps. Qed.

Lemma keeps_cancel_goals : keeps cancel_goals.
Proof. unfold cancel_goals, set_preempted. solve_keeps. Qed.

Lemma keeps_blocking (w : World) : keeps (blocking w).
Proof.
  intros s. unfold blocking. destruct (cancel_arrives w (n_blocking s)).
  - match goal with |- ends (cancel_goals ?s1) _ =>
      pose proof (keeps_cancel_goals s1) as H; destruct (cancel_goals s1)
    end; cbn in *; [exact H..|done].
  - done.
Qed.

#[local] Hint Resolve keeps_publish_feedback keeps_set_aborted
  keeps_set_succeeded keeps_is_preempt_requested keeps_preempt_callback
  keeps_blocking : keeps.

Lemma keeps_head_scan_send_goal_and_wait (w : World) (name : string) :
  keeps (head_scan_send_goal_and_wait w name).
Proof.
  unfold head_scan_send_goal_and_wait. solve_keeps.
Qed.

Lemma keeps_head_scan_get_result (w : World) : keeps (head_scan_get_result w).
Proof. unfold head_scan_get_result. solve_keeps. Qed.

Lemma keeps_lookup_transform (w : World) (target source : string) :
  keeps (lookup_transform w target source).
Proof.
  unfold lookup_transform. solve_keeps.
  destruct (tf_lookup w _); solve_keeps.
Qed.

Lemma keeps_sleep (w : World) : keeps (sleep w).
Proof. unfold sleep. solve_keeps. Qed.

#[local] Hint Resolve keeps_head_scan_send_goal_and_wait
  keeps_head_scan_get_result keeps_lookup_transform keeps_sleep : keeps.

Lemma keeps_sample_transforms (w : World) (k : nat) :
  forall transforms, keeps (sample_transforms w k transforms).
Proof.
  induction k as [|k IH]; intros transforms; cbn [sample_transforms].
  - solve_keeps.
  - apply keeps_bind; [solve_keeps|].
    intros [transforms'|]; [apply IH|solve_keeps].
Qed.

#[local] Hint Resolve keeps_sample_transforms : keeps.

(** ** The attempt counter *)

Lemma counters_inv (s : St) (n lim : Z) (hist : list Z) (att : nat) :
  counters s = (n, lim, hist, att) ->
  num_tries s = n /\ max_tries s = lim
  /\ tries_history (trace s) = hist /\ navigation_attempts (trace s) = att.
Proof. unfold counters. by intros [= -> -> -> ->]. Qed.

Lemma ends_mono {A} (r : res A) (Q Q' : St -> Prop) :
  ends r Q -> (forall s, Q s -> Q' s) -> ends r Q'.
Proof. destruct r; cbn; auto. Qed.

Lemma ends_bind_set_num_tries {B} (v : Z) (f : unit -> M B) (s : St)
    (Q : St -> Prop) (n lim : Z) (hist : list Z) (att : nat) :
  counters s = (n, lim, hist, att) ->
  (forall s1, counters s1 = (v, lim, hist ++ [v], att) -> ends (f tt s1) Q) ->
  ends (bind (set_num_tries v) f s) Q.
Proof.
  intros (_ & <- & <- & <-)%counters_inv Hf. apply ends_bind. cbn.
  apply Hf. unfold counters. cbn [num_tries max_tries trace].
  rewrite tries_history_app, navigation_attempts_app.
  by rewrite Nat.add_0_r.
Qed.

Lemma bind_blocking {B} (w : World) (f : unit -> M B) (s : St) :
  bind (blocking w) f s = f tt (after_blocking w s).
Proof. unfold bind. by rewrite blocking_run. Qed.

Arguments blocking : simpl never.
Arguments after_blocking : simpl never.
Arguments averaged : simpl never.
Arguments calculate_diff : simpl never.
Arguments exceeds_threshold : simpl never.
Arguments sample_transforms : simpl never.
Arguments navigate_to_marker : simpl never.
Arguments move_base_aruco_callback : simpl never.

Lemma counters_after_blocking (w : World) (s : St) :
  counters (after_blocking w s) = counters s.
Proof.
  pose proof (keeps_blocking w s) as H. by rewrite blocking_run in H.
Qed.

Lemma ends_bind_move_base {B} (w : World) (frame : string) (pose : Pose)
    (f : Z -> M B) (s : St) (Q : St -> Prop)
    (n lim : Z) (hist : list Z) (att : nat) :
  counters s = (n, lim, hist, att) ->
  (forall r s1, counters s1 = (n, lim, hist, S att) -> ends (f r s1) Q) ->
  ends (bind (move_base_send_goal_and_wait w frame pose) f s) Q.
Proof.
  intros (<- & <- & <- & <-)%counters_inv Hf. apply ends_bind.
  unfold move_base_send_goal_and_wait.
  cbn. rewrite bind_blocking. cbn. apply Hf.
  match goal with |- counters ?s1 = _ =>
    change s1 with
      (after_blocking w
         (mkSt (num_tries s) (max_tries s) (aruco_name s) (relative_pose s)
            (map_to_aruco s) (relative_pose_tf s) (preempt_request s)
            (n_blocking s) (n_scans s) (n_lookups s) (S (n_navs s))
            (trace s ++ [MoveBaseGoal frame pose])))
  end.
  rewrite counters_after_blocking.
  unfold counters. cbn [num_tries max_tries trace].
  rewrite tries_history_app, navigation_attempts_app.
  change (tries_history [MoveBaseGoal frame pose]) with (@nil Z).
  change (navigation_attempts [MoveBaseGoal frame pose]) with 1.
  rewrite app_nil_r. do 3 f_equal. lia.
Qed.

Lemma ends_bind_get {A B} (g : St -> A) (f : A -> M B) (s : St)
    (Q : St -> Prop) :
  ends (f (g s) s) Q -> ends (bind (get g) f s) Q.
Proof. done. Qed.

Lemma countdown_step (n : Z) :
  (0 <= n < 3)%Z -> countdown n = (n + 1)%Z :: countdown (n + 1).
Proof.
  intros Hn. assert (n = 0 \/ n = 1 \/ n = 2)%Z as [->|[->| ->]] by lia;
    reflexivity.
Qed.

Lemma cycles_from_refl (c : Z * Z * list Z * nat) : cycles_from c c.
Proof.
  split; [done|]. exists []. rewrite app_nil_r. cbn.
  split; [done|]. split; [apply prefix_nil|]. split; [done|lia].
Qed.

Lemma cycles_from_incr (n lim : Z) (hist : list Z) (att att' : nat)
    (c' : Z * Z * list Z * nat) :
  (0 <= n < 3)%Z ->
  att' <= S att ->
  cycles_from ((n + 1)%Z, lim, hist ++ [(n + 1)%Z], att') c' ->
  cycles_from (n, lim, hist, att) c'.
Proof.
  intros Hn Hatt [Hlim (suffix & Hhist & Hpre & Hlast & Hnav)].
  cbn [fst snd] in *.
  split; [done|]. exists ((n + 1)%Z :: suffix). cbn [fst snd].
  split; [by rewrite Hhist, <- app_assoc|].
  split; [rewrite (countdown_step n Hn); by apply prefix_cons|].
  split.
  - rewrite Hlast. destruct suffix as [|v suffix]; [done|].
    rewrite last_cons_cons.
    destruct (last (v :: suffix)) eqn:E; [done|].
    by apply last_None in E.
  - unfold increments in *.
    rewrite filter_cons_True by lia. cbn [length]. lia.
Qed.

Lemma cycles_from_reset (lim : Z) (hist : list Z) (att : nat) :
  cycles_from (3%Z, lim, hist, att) (0%Z, lim, hist ++ [0%Z], att).
Proof.
  split; [done|]. exists [0%Z]. cbn.
  split; [done|]. split; [done|]. split; [done|lia].
Qed.

Section AttemptCounter.
Context `{TF : Transformations} `{LM : Libm}.
Variable w : World.

Tactic Notation "keep_on" "as" ident(a) ident(s1) ident(H) :=
  apply ends_bind_keeps; [solve_keeps | | intros a s1 H].

Lemma callback_cycles (nav : M unit) (r : Z) (s : St)
    (n : Z) (hist : list Z) (att : nat) :
  counters s = (n, 3%Z, hist, att) ->
  (1 <= n <= 3)%Z ->
  ((n < 3)%Z ->
   forall s1, counters s1 = (n, 3%Z, hist, att) ->
     ends (nav s1) (fun s' => cycles_from (n, 3%Z, hist, att) (counters s'))) ->
  ends (move_base_aruco_callback w nav r s)
    (fun s' => cycles_from (n, 3%Z, hist, att) (counters s')).
Proof.
  intros Hc Hn Hnav. unfold move_base_aruco_callback.
  assert (Hhere : forall s1, counters s1 = (n, 3%Z, hist, att) ->
            cycles_from (n, 3%Z, hist, att) (counters s1)).
  { intros s1 ->. apply cycles_from_refl. }
  keep_on as preempt s1 H1; [by apply Hhere|].
  assert (Hc1 : counters s1 = (n, 3%Z, hist, att)) by congruence.
  destruct preempt.
  { apply ends_keeps; [solve_keeps|]. by apply Hhere. }
  apply ends_bind_get. apply ends_bind_get.
  destruct (counters_inv _ _ _ _ _ Hc1) as (Hn1 & Hm1 & _ & _).
  rewrite Hn1, Hm1. clear Hn1 Hm1.
  destruct (Z.eqb_spec n 3) as [Heq|Hne].
  { eapply ends_bind_set_num_tries; [exact Hc1|]. intros s2 Hc2.
    apply (ends_keeps _ _ (cycles_from (n, 3%Z, hist, att)));
      [solve_keeps|].
    rewrite Hc2, Heq. apply cycles_from_reset. }
  keep_on as u2 s2 H2; [by apply Hhere|].
  assert (Hc2 : counters s2 = (n, 3%Z, hist, att)) by congruence.
  keep_on as name s2' H2'; [by apply Hhere|].
  assert (Hc2' : counters s2' = (n, 3%Z, hist, att)) by congruence.
  keep_on as u3 s3 H3; [by apply Hhere|].
  assert (Hc3 : counters s3 = (n, 3%Z, hist, att)) by congruence.
  keep_on as found s4 H4; [by apply Hhere|].
  assert (Hc4 : counters s4 = (n, 3%Z, hist, att)) by congruence.
  destruct found; cbn [negb].
  2:{ apply ends_keeps; [solve_keeps|]. by apply Hhere. }
  keep_on as looked s5 H5; [by apply Hhere|].
  assert (Hc5 : counters s5 = (n, 3%Z, hist, att)) by congruence.
  destruct looked as [new_map_to_aruco|].
  2:{ apply ends_keeps; [solve_keeps|]. by apply Hhere. }
  keep_on as old s6 H6; [by apply Hhere|].
  assert (Hc6 : counters s6 = (n, 3%Z, hist, att)) by congruence.
  destruct (calculate_diff old new_map_to_aruco) as [e|diff].
  { apply ends_keeps; [solve_keeps|]. by apply Hhere. }
  apply ends_bind.
  destruct (exceeds_threshold diff).
  - cbn [bind set_map_to_aruco].
    match goal with |- match nav ?s7 with _ => _ end =>
      assert (Hs7 : counters s7 = (n, 3%Z, hist, att))
        by (change (counters s7) with (counters s6); congruence);
      pose proof (Hnav ltac:(lia) s7 Hs7) as Hrun;
      destruct (nav s7) as [[] s8|e s8|]
    end; cbn in Hrun; [|exact Hrun|done].
    apply (ends_keeps _ _ (cycles_from (n, 3%Z, hist, att)));
      [solve_keeps|exact Hrun].
  - cbn [ret].
    apply (ends_keeps _ _ (cycles_from (n, 3%Z, hist, att)));
      [solve_keeps|]. by apply Hhere.
Qed.

Lemma navigate_cycles (depth : nat) :
  forall (s : St) (n : Z) (hist : list Z) (att : nat),
    counters s = (n, 3%Z, hist, att) ->
    (0 <= n < 3)%Z ->
    (3 - n <= Z.of_nat depth)%Z ->
    ends (navigate_to_marker w depth s)
      (fun s' => cycles_from (n, 3%Z, hist, att) (counters s')).
Proof.
  induction depth as [|depth IH]; intros s n hist att Hc Hn Hdepth; [lia|].
  unfold navigate_to_marker; fold (navigate_to_marker w).
  assert (Hhere : forall s1, counters s1 = (n, 3%Z, hist, att) ->
            cycles_from (n, 3%Z, hist, att) (counters s1)).
  { intros s1 ->. apply cycles_from_refl. }
  keep_on as preempt s1 H1; [by apply Hhere|].
  assert (Hc1 : counters s1 = (n, 3%Z, hist, att)) by congruence.
  destruct preempt.
  { apply ends_keeps; [solve_keeps|]. by apply Hhere. }
  apply ends_bind_get.
  destruct (counters_inv _ _ _ _ _ Hc1) as (Hn1 & _ & _ & _).
  rewrite Hn1. clear Hn1.
  eapply ends_bind_set_num_tries; [exact Hc1|]. intros s2 Hc2.
  assert (Hhere2 : forall s3,
            counters s3 = ((n + 1)%Z, 3%Z, hist ++ [(n + 1)%Z], att) ->
            cycles_from (n, 3%Z, hist, att) (counters s3)).
  { intros s3 ->.
    apply (cycles_from_incr _ _ _ att att); [done|lia|].
    apply cycles_from_refl. }
  keep_on as pose s2' H2'; [by apply Hhere2|].
  assert (Hc2' : counters s2' = ((n + 1)%Z, 3%Z, hist ++ [(n + 1)%Z], att))
    by congruence.
  keep_on as name s2'' H2''; [by apply Hhere2|].
  assert (Hc2'' : counters s2'' = ((n + 1)%Z, 3%Z, hist ++ [(n + 1)%Z], att))
    by congruence.
  keep_on as u3 s3 H3; [by apply Hhere2|].
  assert (Hc3 : counters s3 = ((n + 1)%Z, 3%Z, hist ++ [(n + 1)%Z], att))
    by congruence.
  keep_on as u4 s4 H4; [by apply Hhere2|].
  assert (Hc4 : counters s4 = ((n + 1)%Z, 3%Z, hist ++ [(n + 1)%Z], att))
    by congruence.
  keep_on as sampled s5 H5; [by apply Hhere2|].
  assert (Hc5 : counters s5 = ((n + 1)%Z, 3%Z, hist ++ [(n + 1)%Z], att))
    by congruence.
  destruct sampled as [samples|].
  2:{ apply ends_keeps; [solve_keeps|]. by apply Hhere2. }
  destruct (averaged samples) as [avg|].
  2:{ apply ends_keeps; [solve_keeps|]. by apply Hhere2. }
  keep_on as u6 s6 H6; [by apply Hhere2|].
  assert (Hc6 : counters s6 = ((n + 1)%Z, 3%Z, hist ++ [(n + 1)%Z], att))
    by congruence.
  eapply ends_bind_move_base; [exact Hc6|].
  intros result s7 Hc7.
  eapply ends_mono.
  - apply (callback_cycles _ _ _ _ _ _ Hc7); [lia|].
    intros Hlt s8 Hc8. apply (IH _ _ _ _ Hc8); lia.
  - intros s' Hs'. cbn beta in Hs'.
    by apply (cycles_from_incr _ _ _ att (S att)).
Qed.

End AttemptCounter.

Lemma ends_final {A} (r : res A) (Q : St -> Prop) :
  ends r Q -> exists s', final r = Some s' /\ Q s'.
Proof. destruct r; cbn; [eauto..|done]. Qed.

Lemma prefix_of_countdown_0 (suffix : list Z) :
  suffix `prefix_of` countdown 0 ->
  suffix = [] \/ suffix = [1%Z] \/ suffix = [1%Z; 2%Z]
  \/ suffix = [1%Z; 2%Z; 3%Z] \/ suffix = [1%Z; 2%Z; 3%Z; 0%Z].
Proof.
  intros [k Hk]. change (countdown 0) with [1%Z; 2%Z; 3%Z; 0%Z] in Hk.
  destruct suffix as [|a [|b [|c [|d [|e suffix]]]]]; simplify_eq/=; auto 6.
Qed.

Lemma serve_cycles `{TF : Transformations} `{LM : Libm}
    (w : World) (depth : nat)
    (goal : Goal) (s : St) :
  max_tries s = 3%Z ->
  3 <= depth ->
  ends (serve w depth goal s)
    (fun s' => cycles_from (0%Z, 3%Z, [0%Z], 0) (counters s')).
Proof.
  intros Hmax Hdepth. unfold serve. apply ends_bind. cbn [accept_new_goal].
  unfold execute_callback.
  eapply ends_bind_set_num_tries.
  { unfold counters. cbn. by rewrite Hmax. }
  intros s1 Hc1. cbn [app] in Hc1.
  assert (Hhere : forall s2, counters s2 = (0%Z, 3%Z, [0%Z], 0) ->
            cycles_from (0%Z, 3%Z, [0%Z], 0) (counters s2)).
  { intros s2 ->. apply cycles_from_refl. }
  apply ends_bind_keeps; [solve_keeps|by apply Hhere|intros u2 s2 H2].
  assert (Hc2 : counters s2 = (0%Z, 3%Z, [0%Z], 0)) by congruence.
  apply ends_bind_keeps; [solve_keeps|by apply Hhere|intros u3 s3 H3].
  assert (Hc3 : counters s3 = (0%Z, 3%Z, [0%Z], 0)) by congruence.
  apply ends_bind_keeps; [solve_keeps|by apply Hhere|intros name s3' H3'].
  assert (Hc3' : counters s3' = (0%Z, 3%Z, [0%Z], 0)) by congruence.
  apply ends_bind_keeps; [solve_keeps|by apply Hhere|intros u4 s4 H4].
  assert (Hc4 : counters s4 = (0%Z, 3%Z, [0%Z], 0)) by congruence.
  apply ends_bind_keeps; [solve_keeps|by apply Hhere|intros preempt s5 H5].
  assert (Hc5 : counters s5 = (0%Z, 3%Z, [0%Z], 0)) by congruence.
  destruct preempt.
  { apply ends_keeps; [solve_keeps|]. by apply Hhere. }
  apply ends_bind_keeps; [solve_keeps|by apply Hhere|intros found s6 H6].
  assert (Hc6 : counters s6 = (0%Z, 3%Z, [0%Z], 0)) by congruence.
  destruct found; cbn [negb].
  2:{ apply ends_keeps; [solve_keeps|]. by apply Hhere. }
  apply ends_bind_keeps; [solve_keeps|by apply Hhere|intros marker s7 H7].
  assert (Hc7 : counters s7 = (0%Z, 3%Z, [0%Z], 0)) by congruence.
  apply ends_bind_keeps; [solve_keeps|by apply Hhere|intros t s8 H8].
  assert (Hc8 : counters s8 = (0%Z, 3%Z, [0%Z], 0)) by congruence.
  apply ends_bind_keeps; [solve_keeps|by apply Hhere|intros u9 s9 H9].
  assert (Hc9 : counters s9 = (0%Z, 3%Z, [0%Z], 0)) by congruence.
  apply (navigate_cycles w depth s9 _ _ _ Hc9); lia.
Qed.

(** C10: while a request is served the attempt counter stays within
    [0, max_tries] with [max_tries = 3].  It is set to 0 on acceptance,
    then goes up by one per navigation cycle ([1, 2, 3]) and, once it has
    reached 3, is only reset to 0: its history is a prefix of
    [0, 1, 2, 3, 0].  No more navigation goals are sent than the counter
    was incremented, hence at most 3, and the calls of
    [navigate_to_marker] nest at most 3 deep: with that depth (or more)
    the run always stops. *)
Theorem attempt_counter_bounded `{TF : Transformations} `{LM : Libm} (w : World)
    (depth : nat) (goal : Goal) (s : St) :
  max_tries s = 3%Z ->
  3 <= depth ->
  exists s',
    final (serve w depth goal s) = Some s'
    /\ max_tries s' = 3%Z
    /\ tries_history (trace s') `prefix_of` [0; 1; 2; 3; 0]%Z
    /\ head (tries_history (trace s')) = Some 0%Z
    /\ Forall (fun n => 0 <= n <= 3)%Z (tries_history (trace s'))
    /\ (0 <= num_tries s' <= 3)%Z
    /\ navigation_attempts (trace s') <= increments (tries_history (trace s'))
    /\ increments (tries_history (trace s')) <= 3.
Proof.
  intros Hmax Hdepth.
  destruct (ends_final _ _ (serve_cycles w depth goal s Hmax Hdepth))
    as (s' & Hfinal & Hlim & suffix & Hhist & Hpre & Hlast & Hnav).
  exists s'. split; [exact Hfinal|]. clear Hfinal. unfold counters in *.
  cbn [fst snd] in *. split; [exact Hlim|].
  rewrite Hhist, Hlast. clear Hhist Hlast.
  apply prefix_of_countdown_0 in Hpre
    as [->|[->|[->|[->| ->]]]]; cbn -[increments navigation_attempts];
    (split; [by apply prefix_cons; eexists|]);
    (split; [done|]);
    (split; [repeat (apply Forall_cons; split; [lia|]); apply Forall_nil_2|]);
    (split; [lia|]);
    set (k := navigation_attempts (trace s')) in *; clearbody k;
    vm_compute in Hnav |- *; lia.
Qed.

(** C10, witness: the first request of a fresh server, in the world
    where the estimate never settles. *)
Lemma attempt_counter_bounded_witness :
  exists s',
    final (serve (TF := tf_at_identity)
        (LM := correctly_rounded) drifting 3 dock init) = Some s'
    /\ max_tries s' = 3%Z
    /\ tries_history (trace s') `prefix_of` [0; 1; 2; 3; 0]%Z
    /\ head (tries_history (trace s')) = Some 0%Z
    /\ Forall (fun n => 0 <= n <= 3)%Z (tries_history (trace s'))
    /\ (0 <= num_tries s' <= 3)%Z
    /\ navigation_attempts (trace s') <= increments (tries_history (trace s'))
    /\ increments (tries_history (trace s')) <= 3.
Proof.
  apply (attempt_counter_bounded (TF := tf_at_identity)
      (LM := correctly_rounded) drifting 3 dock init).
  - reflexivity.
  - lia.
Defined.

(** ** Scenarios *)

(** C1, at a failing input: the estimate never settles (both differences
    computed are 11, above 0.075), the third attempt ends the request
    with [set_aborted], and each of the two evaluations that had asked
    for a retry then publishes "Navigation succeeded!" and calls
    [set_succeeded]. *)
Theorem success_reported_after_failed_retry :
  calculate_diff (TF := tf_at_identity) (LM := correctly_rounded)
      (mkTransformStamped "map" "dock" (upright 1 0 0))
      (mkTransformStamped "map" "dock" (upright 12 0 0)) = inr 11%float
  /\ calculate_diff (TF := tf_at_identity) (LM := correctly_rounded)
      (mkTransformStamped "map" "dock" (upright 12 0 0))
      (mkTransformStamped "map" "dock" (upright 23 0 0)) = inr 11%float
  /\ exceeds_threshold 11 = true
  /\ reports <$> (trace <$>
       final (serve (TF := tf_at_identity)
           (LM := correctly_rounded) drifting 3 dock init))
     = Some
         [PublishFeedback "Scanning for marker..." "info";
          PublishFeedback "Navigating to marker..." "info";
          PublishFeedback "Navigating to marker..." "info";
          PublishFeedback "Navigating to marker..." "info";
          PublishFeedback "Navigation failed, please try again." "error";
          SetAborted;
          PublishFeedback "Navigation succeeded!" "success"; SetSucceeded;
          PublishFeedback "Navigation succeeded!" "success"; SetSucceeded].
Proof. repeat split; vm_compute; reflexivity. Qed.

(** C2, at a failing input: the scan finds the marker but the lookup of
    its frame from [base_link] fails.  [LookupException] leaves
    [execute_callback] uncaught; the server has published no error and
    has not ended the goal. *)
Theorem initial_lookup_failure_escapes :
  uncaught (serve (TF := tf_at_identity)
      (LM := correctly_rounded) lost_frame 3 dock init)
    = Some LookupException
  /\ trace <$> final (serve (TF := tf_at_identity)
      (LM := correctly_rounded) lost_frame 3 dock init)
     = Some
         [NumTries 0; PublishFeedback "Scanning for marker..." "info";
          HeadScanGoal "dock"; IsPreemptRequested false;
          HeadScanGetResult true; LookupTransform "base_link" "dock"]
  /\ goal_status <$> (trace <$>
       final (serve (TF := tf_at_identity)
           (LM := correctly_rounded) lost_frame 3 dock init))
     = Some None.
Proof. repeat split; vm_compute; reflexivity. Qed.

(** C9, at a failing input: the cancel request arrives while the server
    waits for the second head scan.  [cancel_goals] runs, but the server
    does not ask [is_preempt_requested] after that wait: it reads the
    scan result, looks the marker up and reports success. *)
Theorem no_cancellation_check_after_rescan :
  after_last_navigation <$> (trace <$>
    final (serve (TF := tf_at_identity)
        (LM := correctly_rounded) cancelled_during_rescan 3 dock init))
  = Some
      [IsPreemptRequested false; Sleep; HeadScanGoal "dock";
       HeadScanCancelAll; MoveBaseCancelAll; SetPreempted;
       HeadScanGetResult true; LookupTransform "map" "dock";
       PublishFeedback "Navigation succeeded!" "success"; SetSucceeded].
Proof. vm_compute; reflexivity. Qed.

(** C5, counterexample: when the estimate never settles, three
    navigation goals are sent and only three head scans are asked for,
    the first of them before any navigation; after the third navigation
    has completed the server asks for no scan. *)
Lemma no_rescan_after_last_attempt :
  navigation_attempts <$> (trace <$>
    final (serve (TF := tf_at_identity)
        (LM := correctly_rounded) drifting 3 dock init)) = Some 3
  /\ (fun tr => length (filter (fun e => is_head_scan_goal e = true) tr))
       <$> (trace <$>
         final (serve (TF := tf_at_identity)
             (LM := correctly_rounded) drifting 3 dock init)) = Some 3
  /\ after_last_navigation <$> (trace <$>
       final (serve (TF := tf_at_identity)
           (LM := correctly_rounded) drifting 3 dock init))
     = Some
         [IsPreemptRequested false; NumTries 0;
          PublishFeedback "Navigation failed, please try again." "error";
          SetAborted;
          PublishFeedback "Navigation succeeded!" "success"; SetSucceeded;
          PublishFeedback "Navigation succeeded!" "success"; SetSucceeded].
Proof. repeat split; vm_compute; reflexivity. Qed.

(** ** The transitions of a request nobody cancels *)

Lemma bind_ok {A B} (m : M A) (f : A -> M B) (s s' : St) (a : A) :
  m s = Ok a s' -> bind m f s = f a s'.
Proof. unfold bind. by intros ->. Qed.

Lemma advance_nothing (s : St) :
  advance s (num_tries s) (map_to_aruco s) (relative_pose_tf s) 0 0 0 0 [] = s.
Proof. destruct s. unfold advance. cbn. by rewrite app_nil_r. Qed.

Lemma caught_tf2 (e : tf2_error) : caught (exn_of_tf2 e) = true.
Proof. by destruct e. Qed.

Create HintDb py.
#[local] Hint Unfold bind try_except set_aborted set_succeeded
  preempt_callback report_success get_map_to_aruco get_attr sleep
  head_scan_send_goal_and_wait head_scan_get_result lookup_transform
  is_preempt_requested move_base_send_goal_and_wait : py.

Arguments emit _ _ /.
Arguments ret {_} _ _ /.
Arguments raise {_} _ _ /.
Arguments get {_} _ _ /.
Arguments set_num_tries _ _ /.
Arguments set_goal _ _ /.
Arguments set_map_to_aruco _ _ /.
Arguments set_relative_pose_tf _ _ /.
Arguments count_scan _ /.
Arguments count_lookup _ /.
Arguments count_nav _ /.
Arguments publish_feedback _ _ _ /.

Section Transitions.
Context `{TF : Transformations} `{LM : Libm}.
Variable w : World.
Hypothesis never_cancelled : forall k, cancel_arrives w k = false.

Lemma after_blocking_quiet (s : St) :
  after_blocking w s =
    mkSt (num_tries s) (max_tries s) (aruco_name s) (relative_pose s)
      (map_to_aruco s) (relative_pose_tf s) (preempt_request s)
      (S (n_blocking s)) (n_scans s) (n_lookups s) (n_navs s) (trace s).
Proof.
  unfold after_blocking. by rewrite never_cancelled, orb_false_r, app_nil_r.
Qed.

Ltac run :=
  repeat (progress (autounfold with py; cbn;
                    rewrite ?blocking_run, ?after_blocking_quiet)).

Lemma lookup_transform_found (s : St) (target source : string)
    (t : Transform) :
  tf_lookup w (n_lookups s) = Found t ->
  lookup_transform w target source s =
    Ok (mkTransformStamped target source t)
       (advance s (num_tries s) (map_to_aruco s) (relative_pose_tf s)
          1 0 1 0 [LookupTransform target source]).
Proof. intros Hfound. unfold lookup_transform. run. by rewrite Hfound. Qed.

Lemma lookup_transform_not_found (s : St) (target source : string)
    (e : tf2_error) :
  tf_lookup w (n_lookups s) = NotFound e ->
  lookup_transform w target source s =
    Raise (exn_of_tf2 e)
       (advance s (num_tries s) (map_to_aruco s) (relative_pose_tf s)
          1 0 1 0 [LookupTransform target source]).
Proof. intros Hfound. unfold lookup_transform. run. by rewrite Hfound. Qed.

Lemma sample_transforms_S (k : nat) (transforms : list TransformStamped) :
  sample_transforms w (S k) transforms =
    (r <- try_except
            (trans <- lookup_transform w "map" "relative_pose";;
             ret (Some (transforms ++ [trans])))
            (publish_feedback navigation_failed "error";;
             set_aborted;;
             ret None);;
     match r with
     | Some transforms' => sample_transforms w k transforms'
     | None => ret None
     end)%py.
Proof. reflexivity. Qed.

Lemma sample_transforms_found (k : nat) :
  forall (acc : list TransformStamped) (s : St) (p : nat -> Transform),
    (forall i, i < k -> tf_lookup w (i + n_lookups s) = Found (p i)) ->
    sample_transforms w k acc s =
      Ok (Some (acc ++ samples_of p k))
         (advance s (num_tries s) (map_to_aruco s) (relative_pose_tf s)
            k 0 k 0 (sampling k)).
Proof.
  induction k as [|k IH]; intros acc s p Hfound.
  - rewrite advance_nothing. unfold sample_transforms, samples_of, sampling.
    cbn. by rewrite app_nil_r.
  - rewrite sample_transforms_S.
    unfold bind at 1. unfold try_except.
    rewrite (bind_ok _ _ _ _ _
               (lookup_transform_found s "map" "relative_pose" (p 0)
                  (Hfound 0 ltac:(lia)))).
    cbn [ret].
    rewrite (IH _ _ (fun i => p (S i))).
    + unfold advance, samples_of, sampling. cbn.
      rewrite <- !app_assoc, <- fmap_S_seq, <- list_fmap_compose.
      repeat f_equal; lia.
    + intros i Hi. cbn. rewrite <- Hfound by lia. f_equal. lia.
Qed.

Lemma sample_transforms_fails (k : nat) :
  forall (r : nat) (acc : list TransformStamped) (s : St)
         (p : nat -> Transform) (e : tf2_error),
    (forall i, i < k -> tf_lookup w (i + n_lookups s) = Found (p i)) ->
    tf_lookup w (k + n_lookups s) = NotFound e ->
    sample_transforms w (k + S r) acc s =
      Ok None
         (advance s (num_tries s) (map_to_aruco s) (relative_pose_tf s)
            (S k) 0 (S k) 0
            (sampling (S k)
             ++ [PublishFeedback navigation_failed "error"; SetAborted])).
Proof.
  induction k as [|k IH]; intros r acc s p e Hfound Hfails.
  - cbn [Nat.add]. rewrite sample_transforms_S.
    unfold bind at 1. unfold try_except.
    unfold bind at 1.
    rewrite (lookup_transform_not_found s "map" "relative_pose" e Hfails).
    rewrite caught_tf2. unfold advance, sampling. cbn.
    by rewrite <- !app_assoc.
  - cbn [Nat.add]. rewrite sample_transforms_S.
    unfold bind at 1. unfold try_except.
    rewrite (bind_ok _ _ _ _ _
               (lookup_transform_found s "map" "relative_pose" (p 0)
                  (Hfound 0 ltac:(lia)))).
    cbn [ret].
    rewrite (IH _ _ _ (fun i => p (S i)) e).
    + unfold advance, sampling. cbn.
      rewrite <- !app_assoc. repeat f_equal; lia.
    + intros i Hi. cbn. rewrite <- Hfound by lia. f_equal. lia.
    + cbn. rewrite <- Hfails. f_equal. lia.
Qed.

Lemma callback_exhausted (nav : M unit) (r : Z) (s : St) :
  preempt_request s = false ->
  num_tries s = max_tries s ->
  move_base_aruco_callback w nav r s =
    Ok tt
       (advance s 0 (map_to_aruco s) (relative_pose_tf s) 0 0 0 0
          [IsPreemptRequested false; NumTries 0;
           PublishFeedback navigation_failed "error"; SetAborted]).
Proof.
  intros Hpre Htries. unfold move_base_aruco_callback. run.
  rewrite Hpre. run. rewrite Htries, Z.eqb_refl. run.
  unfold advance. cbn. by rewrite <- !app_assoc, Hpre.
Qed.

Lemma callback_rescans (nav : M unit) (r : Z) (s : St) (name : string)
    (t : Transform) (old : TransformStamped) (d : float) :
  preempt_request s = false ->
  num_tries s <> max_tries s ->
  aruco_name s = Some name ->
  head_scan_result w (n_scans s) = true ->
  tf_lookup w (n_lookups s) = Found t ->
  map_to_aruco s = Some old ->
  calculate_diff old (mkTransformStamped "map" name t) = inr d ->
  move_base_aruco_callback w nav r s =
    if exceeds_threshold d then
      bind nav (fun _ => report_success)
        (advance s (num_tries s)
           (Some (mkTransformStamped "map" name t))
           (relative_pose_tf s) 3 1 1 0 (rescan name))
    else
      Ok tt
         (advance s (num_tries s) (map_to_aruco s) (relative_pose_tf s)
            3 1 1 0
            (rescan name
             ++ [PublishFeedback "Navigation succeeded!" "success";
                 SetSucceeded])).
Proof.
  intros Hpre Htries Hname Hscan Hfound Hold Hdiff.
  unfold move_base_aruco_callback. run.
  rewrite Hpre. run.
  destruct (Z.eqb_spec (num_tries s) (max_tries s)) as [|_]; [done|]. run.
  rewrite Hname. run.
  rewrite Hscan. run. unfold try_except. run. rewrite Hfound. run.
  unfold get_map_to_aruco. run. rewrite Hold. run. rewrite Hdiff.
  destruct (exceeds_threshold d); run.
  - unfold advance, rescan. cbn. by rewrite <- !app_assoc, Hpre, Hname.
  - unfold advance, rescan. cbn. by rewrite <- !app_assoc, Hpre, Hname.
Qed.

Lemma navigate_to_marker_S (depth : nat) :
  navigate_to_marker w (S depth) =
    (preempt <- is_preempt_requested;;
     if preempt then preempt_callback
     else
       tries <- get num_tries;;
       set_num_tries (tries + 1);;
       pose <- get_attr relative_pose;;
       name <- get_attr aruco_name;;
       emit (SendTransform (broadcast_tf pose "relative_pose" name));;
       publish_feedback "Navigating to marker..." "info";;
       sampled <- sample_transforms w 10 [];;
       match sampled with
       | None => ret tt
       | Some samples =>
           match averaged samples with
           | None => raise IndexError
           | Some avg =>
               set_relative_pose_tf avg;;
               result <- move_base_send_goal_and_wait w "map" (pose_of avg);;
               move_base_aruco_callback w (navigate_to_marker w depth) result
           end
       end)%py.
Proof. reflexivity. Qed.

Lemma navigate_sampling_fails (depth : nat) (s : St) (name : string)
    (pose : Transform) (k : nat) (p : nat -> Transform) (e : tf2_error) :
  preempt_request s = false ->
  relative_pose s = Some pose ->
  aruco_name s = Some name ->
  k < 10 ->
  (forall i, i < k -> tf_lookup w (i + n_lookups s) = Found (p i)) ->
  tf_lookup w (k + n_lookups s) = NotFound e ->
  navigate_to_marker w (S depth) s =
    Ok tt
       (advance s (num_tries s + 1) (map_to_aruco s) (relative_pose_tf s)
          (S k) 0 (S k) 0
          (cycle_start s name pose ++ sampling (S k)
           ++ [PublishFeedback navigation_failed "error"; SetAborted])).
Proof.
  intros Hpre Hpose Hname Hk Hfound Hfails. rewrite navigate_to_marker_S. run.
  rewrite Hpre. run. rewrite Hpose. run. rewrite Hname. run.
  replace 10 with (k + S (9 - k)) by lia.
  erewrite (sample_transforms_fails k (9 - k) [] _ p e);
    [|exact Hfound|exact Hfails].
  unfold advance, cycle_start. cbn.
  by rewrite <- !app_assoc, Hpre, Hpose, Hname.
Qed.

Lemma navigate_sends_goal (depth : nat) (s : St) (name : string)
    (pose : Transform) (p : nat -> Transform) (avg : TransformStamped) :
  preempt_request s = false ->
  relative_pose s = Some pose ->
  aruco_name s = Some name ->
  (forall i, i < 10 -> tf_lookup w (i + n_lookups s) = Found (p i)) ->
  averaged (samples_of p 10) = Some avg ->
  navigate_to_marker w (S depth) s =
    move_base_aruco_callback w (navigate_to_marker w depth)
      (move_base_result w (n_navs s))
      (advance s (num_tries s + 1) (map_to_aruco s) (Some avg)
         11 0 10 1
         (cycle_start s name pose ++ sampling 10
          ++ [MoveBaseGoal "map" (pose_of avg)])).
Proof.
  intros Hpre Hpose Hname Hfound Havg. rewrite navigate_to_marker_S. run.
  rewrite Hpre. run. rewrite Hpose. run. rewrite Hname. run.
  erewrite (sample_transforms_found 10 [] _ p); [|exact Hfound].
  rewrite app_nil_l, Havg. run.
  unfold advance, cycle_start, sampling. cbn.
  by rewrite <- !app_assoc, Hpre, Hpose, Hname.
Qed.

End Transitions.

Lemma goal_status_app (tr tr' : list event) :
  goal_status (tr ++ tr') =
    match goal_status tr with
    | Some t => Some t
    | None => goal_status tr'
    end.
Proof.
  unfold goal_status. rewrite omap_app.
  by destruct (omap terminal_of tr).
Qed.

Lemma navigation_attempts_sampling (k : nat) :
  navigation_attempts (sampling k) = 0.
Proof. induction k as [|k IH]; [done|exact IH]. Qed.

Lemma goal_status_sampling (k : nat) (tr : list event) :
  goal_status (sampling k ++ tr) = goal_status tr.
Proof. induction k as [|k IH]; [done|exact IH]. Qed.

Lemma length_samples_of (p : nat -> Transform) (k : nat) :
  length (samples_of p k) = k.
Proof. unfold samples_of. by rewrite length_map, length_seq. Qed.

(** C6: in a request nobody cancels, a navigation cycle that starts with
    no cancellation pending and whose first [k] lookups of the target
    frame succeed
    - when [k < 10] and the next lookup fails: has made exactly [k + 1]
      lookups (no lookup is retried), publishes "Navigation failed" and
      calls [set_aborted] at once, sends no navigation goal and returns;
    - when [k = 10]: averages exactly those ten samples and sends the
      average as the navigation goal. *)
Theorem sampling_is_all_or_nothing `{TF : Transformations} `{LM : Libm}
    (w : World) (depth : nat) (s : St) (name : string) (pose : Transform)
    (p : nat -> Transform) (k : nat) (e : tf2_error) :
  (forall i, cancel_arrives w i = false) ->
  preempt_request s = false ->
  relative_pose s = Some pose ->
  aruco_name s = Some name ->
  k <= 10 ->
  (forall i, i < k -> tf_lookup w (i + n_lookups s) = Found (p i)) ->
  (k < 10 -> tf_lookup w (k + n_lookups s) = NotFound e) ->
  (k < 10 ->
   exists s',
     navigate_to_marker w (S depth) s = Ok tt s'
     /\ trace s' =
          trace s ++ cycle_start s name pose ++ sampling (S k)
          ++ [PublishFeedback navigation_failed "error"; SetAborted]
     /\ n_lookups s' = S k + n_lookups s
     /\ navigation_attempts (trace s') = navigation_attempts (trace s)
     /\ (goal_status (trace s) = None ->
         goal_status (trace s') = Some Aborted))
  /\ (k = 10 ->
      exists avg s',
        length (samples_of p 10) = 10
        /\ averaged (samples_of p 10) = Some avg
        /\ navigate_to_marker w (S depth) s =
             move_base_aruco_callback w (navigate_to_marker w depth)
               (move_base_result w (n_navs s)) s'
        /\ trace s' =
             trace s ++ cycle_start s name pose ++ sampling 10
             ++ [MoveBaseGoal "map" (pose_of avg)]
        /\ relative_pose_tf s' = Some avg
        /\ n_lookups s' = 10 + n_lookups s).
Proof.
  intros Hquiet Hpre Hpose Hname Hk Hfound Hfails. split.
  - intros Hlt. eexists. split.
    { apply (navigate_sampling_fails w Hquiet depth s name pose k p e); auto. }
    split; [reflexivity|]. split; [reflexivity|]. split.
    + cbn [trace advance].
      rewrite !navigation_attempts_app, navigation_attempts_sampling.
      change (navigation_attempts (cycle_start s name pose)) with 0.
      change (navigation_attempts
                [PublishFeedback navigation_failed "error"; SetAborted])
        with 0.
      lia.
    + intros Hactive. cbn [trace advance].
      rewrite goal_status_app, Hactive. unfold cycle_start.
      change (goal_status (sampling (S k)
                ++ [PublishFeedback navigation_failed "error"; SetAborted])
              = Some Aborted).
      by rewrite goal_status_sampling.
  - intros ->.
    destruct (averaged_total (samples_of p 10)) as [avg Havg];
      [discriminate|].
    exists avg. eexists. split; [apply length_samples_of|].
    split; [exact Havg|]. split.
    { apply (navigate_sends_goal w Hquiet depth s name pose p avg); auto. }
    split; [reflexivity|]. split; reflexivity.
Qed.

(** C6, witness: on a server that holds the request for "dock", three
    lookups succeed and the fourth fails; and ten lookups succeed. *)
Lemma sampling_is_all_or_nothing_witness :
  (exists s',
     navigate_to_marker (TF := tf_at_identity) (LM := correctly_rounded)
       sampling_breaks 1 assigned = Ok tt s'
     /\ trace s' =
          trace assigned ++ cycle_start assigned "dock" (upright 0.5 0 0)
          ++ sampling 4
          ++ [PublishFeedback navigation_failed "error"; SetAborted]
     /\ n_lookups s' = 4
     /\ navigation_attempts (trace s') = 0
     /\ (goal_status (trace assigned) = None ->
         goal_status (trace s') = Some Aborted))
  /\ (exists avg s',
        length (samples_of (fun _ => upright 1 2 0) 10) = 10
        /\ averaged (TF := tf_at_identity)
             (samples_of (fun _ => upright 1 2 0) 10) = Some avg
        /\ navigate_to_marker (TF := tf_at_identity)
             (LM := correctly_rounded) settled 1 assigned =
             move_base_aruco_callback (TF := tf_at_identity)
               (LM := correctly_rounded) settled
               (navigate_to_marker (TF := tf_at_identity)
                  (LM := correctly_rounded) settled 0)
               STATUS_ABORTED s'
        /\ trace s' =
             trace assigned ++ cycle_start assigned "dock" (upright 0.5 0 0)
             ++ sampling 10
             ++ [MoveBaseGoal "map" (pose_of avg)]
        /\ relative_pose_tf s' = Some avg
        /\ n_lookups s' = 10).
Proof.
  split.
  - apply (sampling_is_all_or_nothing (TF := tf_at_identity)
             (LM := correctly_rounded) sampling_breaks
             0 assigned "dock" (upright 0.5 0 0) (fun _ => upright 1 2 0) 3
             TfConnectivity);
      try reflexivity; try lia.
    intros i Hi. destruct i as [|[|[|i]]]; [reflexivity..|lia].
  - apply (sampling_is_all_or_nothing (TF := tf_at_identity)
             (LM := correctly_rounded) settled
             0 assigned "dock" (upright 0.5 0 0) (fun _ => upright 1 2 0) 10
             TfLookup);
      try reflexivity; try lia.
Defined.

(** C5, as amended: what [move_base_aruco_callback] does never depends
    on the status the navigation returned.  When no cancellation is
    pending and the attempt counter differs from [max_tries], the server
    asks for a new head scan and (in a request nobody cancels, the marker
    found and looked up) evaluates the drift: it reports success when the
    drift does not exceed the threshold, also after a navigation that
    failed, and starts another cycle when it does.  With the counter at
    [max_tries], or with a cancellation pending, there is no new scan:
    the server resets the counter and aborts, or publishes the
    cancellation, and returns. *)
Theorem rescan_ignores_navigation_outcome `{TF : Transformations}
    `{LM : Libm} (w : World) (nav : M unit) (result result' : Z) (s : St) :
  move_base_aruco_callback w nav result s
    = move_base_aruco_callback w nav result' s
  /\ (forall (name : string) (t : Transform) (old : TransformStamped)
             (d : float),
        (forall i, cancel_arrives w i = false) ->
        preempt_request s = false ->
        num_tries s <> max_tries s ->
        aruco_name s = Some name ->
        head_scan_result w (n_scans s) = true ->
        tf_lookup w (n_lookups s) = Found t ->
        map_to_aruco s = Some old ->
        calculate_diff old (mkTransformStamped "map" name t) = inr d ->
        move_base_aruco_callback w nav result s =
          if exceeds_threshold d then
            bind nav (fun _ => report_success)
              (advance s (num_tries s)
                 (Some (mkTransformStamped "map" name t))
                 (relative_pose_tf s) 3 1 1 0 (rescan name))
          else
            Ok tt
               (advance s (num_tries s) (map_to_aruco s) (relative_pose_tf s)
                  3 1 1 0
                  (rescan name
                   ++ [PublishFeedback "Navigation succeeded!" "success";
                       SetSucceeded])))
  /\ (preempt_request s = false ->
      num_tries s = max_tries s ->
      move_base_aruco_callback w nav result s =
        Ok tt
           (advance s 0 (map_to_aruco s) (relative_pose_tf s) 0 0 0 0
              [IsPreemptRequested false; NumTries 0;
               PublishFeedback navigation_failed "error"; SetAborted]))
  /\ (preempt_request s = true ->
      move_base_aruco_callback w nav result s =
        Ok tt
           (advance s (num_tries s) (map_to_aruco s) (relative_pose_tf s)
              0 0 0 0
              [IsPreemptRequested true;
               PublishFeedback "Aruco navigation cancelled!" "error"])).
Proof.
  split; [reflexivity|]. split; [|split].
  - intros name t old d Hquiet Hpre Htries Hname Hscan Hfound Hold Hdiff.
    by apply (callback_rescans w Hquiet nav result s name t old d).
  - intros Hpre Htries. unfold move_base_aruco_callback.
    repeat (progress (autounfold with py; cbn)).
    rewrite Hpre. repeat (progress (autounfold with py; cbn)).
    rewrite Htries, Z.eqb_refl. repeat (progress (autounfold with py; cbn)).
    unfold advance. cbn. by rewrite <- !app_assoc, Hpre.
  - intros Hpre. unfold move_base_aruco_callback.
    repeat (progress (autounfold with py; cbn)).
    rewrite Hpre. repeat (progress (autounfold with py; cbn)).
    unfold advance. cbn. by rewrite <- !app_assoc, Hpre.
Qed.

(** C5, witness: the marker has not moved and the navigation goal was
    aborted, and success is reported; after the third navigation goal
    and with a cancellation pending there is no scan. *)
Lemma rescan_ignores_navigation_outcome_witness :
  (move_base_aruco_callback (TF := tf_at_identity) (LM := correctly_rounded)
       settled
       (navigate_to_marker (TF := tf_at_identity) (LM := correctly_rounded)
          settled 2)
       STATUS_ABORTED after_first_navigation
     = move_base_aruco_callback (TF := tf_at_identity)
         (LM := correctly_rounded) settled
         (navigate_to_marker (TF := tf_at_identity) (LM := correctly_rounded)
            settled 2)
         STATUS_SUCCEEDED after_first_navigation
   /\ move_base_aruco_callback (TF := tf_at_identity)
        (LM := correctly_rounded) settled
        (navigate_to_marker (TF := tf_at_identity) (LM := correctly_rounded)
           settled 2)
        STATUS_ABORTED after_first_navigation
      = Ok tt
          (advance after_first_navigation 1
             (Some (mkTransformStamped "map" "dock" (upright 1 2 0))) None
             3 1 1 0
             [IsPreemptRequested false; Sleep; HeadScanGoal "dock";
              HeadScanGetResult true; LookupTransform "map" "dock";
              PublishFeedback "Navigation succeeded!" "success";
              SetSucceeded]))
  /\ move_base_aruco_callback (TF := tf_at_identity)
       (LM := correctly_rounded) drifting
       (navigate_to_marker (TF := tf_at_identity) (LM := correctly_rounded)
          drifting 0)
       STATUS_SUCCEEDED after_third_navigation
     = Ok tt
         (advance after_third_navigation 0
            (Some (mkTransformStamped "map" "dock" (upright 23 0 0))) None
            0 0 0 0
            [IsPreemptRequested false; NumTries 0;
             PublishFeedback navigation_failed "error"; SetAborted])
  /\ move_base_aruco_callback (TF := tf_at_identity)
       (LM := correctly_rounded) settled
       (navigate_to_marker (TF := tf_at_identity) (LM := correctly_rounded)
          settled 2)
       STATUS_SUCCEEDED cancellation_pending
     = Ok tt
         (advance cancellation_pending 1
            (Some (mkTransformStamped "map" "dock" (upright 1 2 0))) None
            0 0 0 0
            [IsPreemptRequested true;
             PublishFeedback "Aruco navigation cancelled!" "error"]).
Proof.
  split; [|split].
  - destruct (rescan_ignores_navigation_outcome (TF := tf_at_identity)
                (LM := correctly_rounded) settled
                (navigate_to_marker (TF := tf_at_identity)
                   (LM := correctly_rounded) settled 2)
                STATUS_ABORTED STATUS_SUCCEEDED after_first_navigation)
      as (Hsame & Hrescan & _ & _).
    split; [exact Hsame|].
    apply (Hrescan "dock" (upright 1 2 0)
             (mkTransformStamped "map" "dock" (upright 1 2 0)) 0%float);
      try reflexivity.
    discriminate.
  - apply (rescan_ignores_navigation_outcome (TF := tf_at_identity)
             (LM := correctly_rounded) drifting
             (navigate_to_marker (TF := tf_at_identity)
                (LM := correctly_rounded) drifting 0)
             STATUS_SUCCEEDED STATUS_SUCCEEDED after_third_navigation);
      reflexivity.
  - apply (rescan_ignores_navigation_outcome (TF := tf_at_identity)
             (LM := correctly_rounded) settled
             (navigate_to_marker (TF := tf_at_identity)
                (LM := correctly_rounded) settled 2)
             STATUS_SUCCEEDED STATUS_SUCCEEDED cancellation_pending);
      reflexivity.
Defined.

(** C4: a request nobody cancels, whose scans and lookups all succeed and
    whose every computed difference exceeds 0.075, sends exactly three
    navigation goals; the goal then ends [Aborted], the feedback
    published last before that being "Navigation failed, please try
    again." (error), and the attempt counter is back to 0 when the
    request ends. *)
Theorem never_converging_request_aborts `{TF : Transformations} `{LM : Libm}
    (w : World)
    (depth : nat) (goal : Goal) (s : St) (p : nat -> Transform) :
  max_tries s = 3%Z ->
  (forall k, cancel_arrives w k = false) ->
  (forall k, head_scan_result w k = true) ->
  (forall k, tf_lookup w k = Found (p k)) ->
  (forall j, j < 2 ->
     exists diff,
       calculate_diff (marker_estimate p (goal_name goal) j)
                      (marker_estimate p (goal_name goal) (S j)) = inr diff
       /\ exceeds_threshold diff = true) ->
  exists s',
    serve w (3 + depth) goal s = Ok tt s'
    /\ navigation_attempts (trace s') = 3
    /\ goal_status (trace s') = Some Aborted
    /\ feedback_at_end None (trace s') = Some (navigation_failed, "error")
    /\ num_tries s' = 0%Z.
Proof.
  intros Hmax Hquiet Hscan Hlookup Hdrift.
  destruct (Hdrift 0 ltac:(lia)) as (d0 & Hd0 & Hex0).
  destruct (Hdrift 1 ltac:(lia)) as (d1 & Hd1 & Hex1).
  unfold marker_estimate in Hd0, Hd1. cbn in Hd0, Hd1.
  destruct (averaged_total (samples_of (fun i => p (i + 2)) 10))
    as [avg0 Havg0]; [discriminate|].
  destruct (averaged_total (samples_of (fun i => p (i + 13)) 10))
    as [avg1 Havg1]; [discriminate|].
  destruct (averaged_total (samples_of (fun i => p (i + 24)) 10))
    as [avg2 Havg2]; [discriminate|].
  unfold serve, execute_callback.
  repeat (progress (autounfold with py; cbn;
                    rewrite ?blocking_run, ?(after_blocking_quiet w Hquiet),
                      ?Hscan, ?Hlookup)).
  erewrite (navigate_sends_goal w Hquiet _ _ _ _ (fun i => p (i + 2)) avg0);
    [|reflexivity|reflexivity|reflexivity|intros i _; apply Hlookup
     |exact Havg0].
  unfold advance, cycle_start. cbn.
  erewrite (callback_rescans w Hquiet _ _ _ _ (p 12) _ d0);
    [|reflexivity|cbn; rewrite Hmax; lia|reflexivity|apply Hscan
     |apply Hlookup|reflexivity|exact Hd0].
  rewrite Hex0. unfold bind at 1. unfold advance, rescan. cbn.
  erewrite (navigate_sends_goal w Hquiet _ _ _ _ (fun i => p (i + 13)) avg1);
    [|reflexivity|reflexivity|reflexivity|intros i _; apply Hlookup
     |exact Havg1].
  unfold advance, cycle_start. cbn.
  erewrite (callback_rescans w Hquiet _ _ _ _ (p 23) _ d1);
    [|reflexivity|cbn; rewrite Hmax; lia|reflexivity|apply Hscan
     |apply Hlookup|reflexivity|exact Hd1].
  rewrite Hex1. unfold bind at 1. unfold advance, rescan. cbn.
  erewrite (navigate_sends_goal w Hquiet _ _ _ _ (fun i => p (i + 24)) avg2);
    [|reflexivity|reflexivity|reflexivity|intros i _; apply Hlookup
     |exact Havg2].
  unfold advance, cycle_start. cbn.
  erewrite (callback_exhausted w);
    [|reflexivity|cbn; rewrite Hmax; reflexivity].
  unfold advance. cbn.
  eexists. split; [reflexivity|].
  cbn [trace].
  repeat split; reflexivity.
Qed.

(** C4, witness: the first request of a fresh server, in the world where
    every lookup answers one metre further than the one before. *)
Lemma never_converging_request_aborts_witness :
  exists s',
    serve (TF := tf_at_identity)
        (LM := correctly_rounded) drifting 3 dock init = Ok tt s'
    /\ navigation_attempts (trace s') = 3
    /\ goal_status (trace s') = Some Aborted
    /\ feedback_at_end None (trace s') = Some (navigation_failed, "error")
    /\ num_tries s' = 0%Z.
Proof.
  apply (never_converging_request_aborts (TF := tf_at_identity)
      (LM := correctly_rounded) drifting 0
           dock init (fun k => upright (float_of_len k) 0 0));
    try reflexivity.
  intros j Hj. exists 11%float.
  destruct j as [|[|j]]; [split; vm_compute; reflexivity..|lia].
Defined.

(** * The rest of the code *)

(** ** Pose averaging over different objects *)

Section AveragingDistinct.
Context `{TF : Transformations}.

(** X1: over a list of references whose first object is not listed
    again, [average_transforms] returns the first reference, whose object
    then holds: in [x], [y] and the yaw passed to
    [quaternion_from_euler(0, 0, .)] the mean of the samples' [x], [y]
    and yaw (added from the left in list order, divided by their number),
    [z = 0], and its own frame ids; the other objects are unchanged. *)
Theorem average_transforms_is_mean (h : store) (trans : loc)
    (rest : list loc) (first : TransformStamped)
    (others : list TransformStamped) :
  trans ∉ rest ->
  h !! trans = Some first ->
  Forall2 (fun l t => h !! l = Some t) rest others ->
  exists h',
    average_transforms h (trans :: rest) = Some (h', trans)
    /\ h' !! trans =
         Some (mkTransformStamped (frame_id first) (child_frame_id first)
                 (mkTransform
                    (mkVector3 (float_mean (tx first) (tx <$> others))
                               (float_mean (ty first) (ty <$> others))
                               0%float)
                    (quaternion_from_euler 0%float 0%float
                       (float_mean (yaw_of first) (yaw_of <$> others)))))
    /\ forall l, l <> trans -> h' !! l = h !! l.
Proof.
  intros Hnotin Hfirst Hheld.
  unfold average_transforms. cbn [head tail mbind option_bind].
  rewrite Hfirst. cbn. rewrite lookup_insert_eq. cbn.
  destruct (average_transforms_loop_sums trans rest others
              (<[trans:=set_tz 0 first]> h)
              (angle_2 (euler_from_quaternion (trot first)))
              (set_tz 0 first))
    as (h1 & t1 & Hrun & Ht1 & Hx & Hy & (Hz & Hq & Hf & Hc) & Hfr).
  { exact Hnotin. }
  { apply lookup_insert_eq. }
  { by apply held_after_insert. }
  rewrite Hrun. cbn. rewrite Ht1. cbn.
  repeat (rewrite lookup_insert_eq; cbn).
  eexists. split; [reflexivity|]. split.
  - rewrite lookup_insert_eq.
    assert (Hlen : forall f : TransformStamped -> float,
               length (f <$> others) = length rest).
    { intros f. rewrite length_fmap. symmetry.
      by eapply Forall2_length. }
    unfold float_mean, yaw_of, float_of_len, set_trot, set_ty, set_tx, set_tz,
      tx, ty, tz, trot in *.
    rewrite !Hlen. cbn in *. by rewrite Hx, Hy, Hz, Hf, Hc.
  - intros l Hl. rewrite !lookup_insert_ne by done.
    rewrite Hfr by done. by rewrite lookup_insert_ne.
Qed.

End AveragingDistinct.

(** X1, witness: the samples at [(1, 1, 5)], [(2, 2, 5)], [(3, 3, 5)]
    average to [(2, 2, 0)]. *)
Lemma average_transforms_is_mean_witness :
  exists h',
    average_transforms (TF := tf_at_identity) three_samples [0; 1; 2]
      = Some (h', 0)
    /\ h' !! 0 = Some (sample 2 2 0)
    /\ forall l, l <> 0 -> h' !! l = three_samples !! l.
Proof.
  apply (average_transforms_is_mean (TF := tf_at_identity) three_samples 0
           [1; 2] (sample 1 1 5) [sample 2 2 5; sample 3 3 5]).
  - intros Hin. repeat (apply elem_of_cons in Hin as [Hin|Hin];
                        [discriminate|]).
    by apply elem_of_nil in Hin.
  - reflexivity.
  - repeat constructor.
Defined.

(** ** How a request ends *)

Ltac run_until H :=
  repeat (progress (autounfold with py; cbn;
                    rewrite ?blocking_run; try unfold after_blocking; cbn;
                    rewrite ?H)).

(** X2: when the first head scan does not find the marker (and nobody
    cancels meanwhile), the request ends [Aborted] after the feedback
    "Could not find Aruco Marker..." (error): the server has looked up no
    transform and sent no navigation goal. *)
Theorem scan_failure_aborts `{TF : Transformations} `{LM : Libm} (w : World)
    (depth : nat) (goal : Goal) (s : St) :
  cancel_arrives w 0 = false ->
  head_scan_result w 0 = false ->
  exists s',
    serve w depth goal s = Ok tt s'
    /\ trace s' =
         [NumTries 0; PublishFeedback "Scanning for marker..." "info";
          HeadScanGoal (goal_name goal); IsPreemptRequested false;
          HeadScanGetResult false;
          PublishFeedback not_located "error"; SetAborted]
    /\ goal_status (trace s') = Some Aborted
    /\ navigation_attempts (trace s') = 0
    /\ n_lookups s' = 0.
Proof.
  intros Hquiet Hscan. unfold serve, execute_callback.
  run_until Hquiet. rewrite Hscan. run_until Hquiet.
  eexists. split; [reflexivity|]. repeat split; reflexivity.
Qed.

(** X2, witness. *)
Lemma scan_failure_aborts_witness :
  exists s',
    serve (TF := tf_at_identity)
        (LM := correctly_rounded) marker_missing 3 dock init = Ok tt s'
    /\ trace s' =
         [NumTries 0; PublishFeedback "Scanning for marker..." "info";
          HeadScanGoal "dock"; IsPreemptRequested false;
          HeadScanGetResult false;
          PublishFeedback not_located "error"; SetAborted]
    /\ goal_status (trace s') = Some Aborted
    /\ navigation_attempts (trace s') = 0
    /\ n_lookups s' = 0.
Proof.
  apply (scan_failure_aborts (TF := tf_at_identity)
      (LM := correctly_rounded) marker_missing 3 dock init);
    reflexivity.
Defined.

(** X3: when the client cancels while the server waits for the first
    head scan, [cancel_goals] cancels the goals of both clients and calls
    [set_preempted]; the server then sees the request, publishes "Aruco
    navigation cancelled!" (error) and returns.  The request ends
    [Preempted]; the scan result is not read, no transform is looked up
    and no navigation goal is sent. *)
Theorem cancel_during_first_scan `{TF : Transformations} `{LM : Libm}
    (w : World)
    (depth : nat) (goal : Goal) (s : St) :
  cancel_arrives w 0 = true ->
  exists s',
    serve w depth goal s = Ok tt s'
    /\ trace s' =
         [NumTries 0; PublishFeedback "Scanning for marker..." "info";
          HeadScanGoal (goal_name goal);
          HeadScanCancelAll; MoveBaseCancelAll; SetPreempted;
          IsPreemptRequested true;
          PublishFeedback "Aruco navigation cancelled!" "error"]
    /\ goal_status (trace s') = Some Preempted
    /\ navigation_attempts (trace s') = 0
    /\ n_lookups s' = 0.
Proof.
  intros Hcancel. unfold serve, execute_callback.
  run_until Hcancel.
  eexists. split; [reflexivity|]. repeat split; reflexivity.
Qed.

(** X3, witness. *)
Lemma cancel_during_first_scan_witness :
  exists s',
    serve (TF := tf_at_identity)
        (LM := correctly_rounded) (cancelled_during 0) 3 dock init = Ok tt s'
    /\ trace s' =
         [NumTries 0; PublishFeedback "Scanning for marker..." "info";
          HeadScanGoal "dock";
          HeadScanCancelAll; MoveBaseCancelAll; SetPreempted;
          IsPreemptRequested true;
          PublishFeedback "Aruco navigation cancelled!" "error"]
    /\ goal_status (trace s') = Some Preempted
    /\ navigation_attempts (trace s') = 0
    /\ n_lookups s' = 0.
Proof.
  apply (cancel_during_first_scan (TF := tf_at_identity)
      (LM := correctly_rounded) (cancelled_during 0)
           3 dock init).
  reflexivity.
Defined.

(** X4: a request nobody cancels, whose scans and lookups succeed and
    whose first drift evaluation does not exceed 0.075, sends exactly one
    navigation goal and ends [Succeeded] after the feedback "Navigation
    succeeded!" (success).  The attempt counter is not reset on success:
    it is left at 1. *)
Theorem converged_request_succeeds `{TF : Transformations} `{LM : Libm}
    (w : World)
    (depth : nat) (goal : Goal) (s : St) (p : nat -> Transform) (d : float) :
  max_tries s = 3%Z ->
  (forall k, cancel_arrives w k = false) ->
  (forall k, head_scan_result w k = true) ->
  (forall k, tf_lookup w k = Found (p k)) ->
  calculate_diff (marker_estimate p (goal_name goal) 0)
                 (marker_estimate p (goal_name goal) 1) = inr d ->
  exceeds_threshold d = false ->
  exists s',
    serve w (S depth) goal s = Ok tt s'
    /\ navigation_attempts (trace s') = 1
    /\ goal_status (trace s') = Some Succeeded
    /\ feedback_at_end None (trace s') = Some ("Navigation succeeded!", "success")
    /\ reports (trace s') =
         [PublishFeedback "Scanning for marker..." "info";
          PublishFeedback "Navigating to marker..." "info";
          PublishFeedback "Navigation succeeded!" "success"; SetSucceeded]
    /\ num_tries s' = 1%Z.
Proof.
  intros Hmax Hquiet Hscan Hlookup Hd Hex.
  unfold marker_estimate in Hd. cbn in Hd.
  destruct (averaged_total (samples_of (fun i => p (i + 2)) 10))
    as [avg0 Havg0]; [discriminate|].
  unfold serve, execute_callback.
  repeat (progress (autounfold with py; cbn;
                    rewrite ?blocking_run, ?(after_blocking_quiet w Hquiet),
                      ?Hscan, ?Hlookup)).
  erewrite (navigate_sends_goal w Hquiet _ _ _ _ (fun i => p (i + 2)) avg0);
    [|reflexivity|reflexivity|reflexivity|intros i _; apply Hlookup
     |exact Havg0].
  unfold advance, cycle_start. cbn.
  erewrite (callback_rescans w Hquiet _ _ _ _ (p 12) _ d);
    [|reflexivity|cbn; rewrite Hmax; lia|reflexivity|apply Hscan
     |apply Hlookup|reflexivity|exact Hd].
  rewrite Hex. unfold advance, rescan. cbn.
  eexists. split; [reflexivity|].
  cbn [trace num_tries]. repeat split; reflexivity.
Qed.

(** X4, witness: the marker does not move; the navigation goal fails. *)
Lemma converged_request_succeeds_witness :
  exists s',
    serve (TF := tf_at_identity)
        (LM := correctly_rounded) settled 1 dock init = Ok tt s'
    /\ navigation_attempts (trace s') = 1
    /\ goal_status (trace s') = Some Succeeded
    /\ feedback_at_end None (trace s') = Some ("Navigation succeeded!", "success")
    /\ reports (trace s') =
         [PublishFeedback "Scanning for marker..." "info";
          PublishFeedback "Navigating to marker..." "info";
          PublishFeedback "Navigation succeeded!" "success"; SetSucceeded]
    /\ num_tries s' = 1%Z.
Proof.
  apply (converged_request_succeeds (TF := tf_at_identity)
      (LM := correctly_rounded) settled 0 dock init
           (fun _ => upright 1 2 0) 0%float);
    reflexivity.
Defined.

Section MoreTransitions.
Context `{TF : Transformations} `{LM : Libm}.
Variable w : World.

Lemma lookup_transform_found_uncancelled (s : St) (target source : string)
    (t : Transform) :
  cancel_arrives w (n_blocking s) = false ->
  tf_lookup w (n_lookups s) = Found t ->
  lookup_transform w target source s =
    Ok (mkTransformStamped target source t)
       (advance s (num_tries s) (map_to_aruco s) (relative_pose_tf s)
          1 0 1 0 [LookupTransform target source]).
Proof.
  intros Hquiet Hfound. unfold lookup_transform. run_until Hquiet.
  rewrite Hfound. unfold advance. cbn.
  by rewrite orb_false_r, app_nil_r.
Qed.

Lemma sample_transforms_found_uncancelled (k : nat) :
  forall (acc : list TransformStamped) (s : St) (p : nat -> Transform),
    (forall i, i < k -> cancel_arrives w (i + n_blocking s) = false) ->
    (forall i, i < k -> tf_lookup w (i + n_lookups s) = Found (p i)) ->
    sample_transforms w k acc s =
      Ok (Some (acc ++ samples_of p k))
         (advance s (num_tries s) (map_to_aruco s) (relative_pose_tf s)
            k 0 k 0 (sampling k)).
Proof.
  induction k as [|k IH]; intros acc s p Hquiet Hfound.
  - rewrite advance_nothing. unfold sample_transforms, samples_of, sampling.
    cbn. by rewrite app_nil_r.
  - rewrite sample_transforms_S.
    unfold bind at 1. unfold try_except.
    rewrite (bind_ok _ _ _ _ _
               (lookup_transform_found_uncancelled s "map" "relative_pose"
                  (p 0) (Hquiet 0 ltac:(lia)) (Hfound 0 ltac:(lia)))).
    cbn [ret].
    rewrite (IH _ _ (fun i => p (S i))).
    + unfold advance, samples_of, sampling. cbn.
      rewrite <- !app_assoc, <- fmap_S_seq, <- list_fmap_compose.
      repeat f_equal; lia.
    + intros i Hi. cbn. rewrite <- (Hquiet (S i)) by lia. f_equal. lia.
    + intros i Hi. cbn. rewrite <- Hfound by lia. f_equal. lia.
Qed.

End MoreTransitions.

(** X5: a navigation cycle that starts with no cancellation pending, gets
    its ten samples, and during whose wait for [move_base] the client
    cancels: [cancel_goals] cancels the goals of both clients and calls
    [set_preempted], and on return from the wait the server sees the
    request, publishes "Aruco navigation cancelled!" (error) and returns.
    It neither scans nor looks up again, and the counter keeps the
    increment of this cycle. *)
Theorem cancel_during_navigation `{TF : Transformations} `{LM : Libm}
    (w : World) (depth : nat) (s : St) (name : string) (pose : Transform)
    (p : nat -> Transform) :
  preempt_request s = false ->
  relative_pose s = Some pose ->
  aruco_name s = Some name ->
  (forall i, i < 10 -> cancel_arrives w (i + n_blocking s) = false) ->
  (forall i, i < 10 -> tf_lookup w (i + n_lookups s) = Found (p i)) ->
  cancel_arrives w (10 + n_blocking s) = true ->
  exists avg s',
    averaged (samples_of p 10) = Some avg
    /\ navigate_to_marker w (S depth) s = Ok tt s'
    /\ trace s' =
         trace s ++ cycle_start s name pose ++ sampling 10
         ++ [MoveBaseGoal "map" (pose_of avg);
             HeadScanCancelAll; MoveBaseCancelAll; SetPreempted;
             IsPreemptRequested true;
             PublishFeedback "Aruco navigation cancelled!" "error"]
    /\ preempt_request s' = true
    /\ num_tries s' = (num_tries s + 1)%Z
    /\ n_scans s' = n_scans s
    /\ n_lookups s' = 10 + n_lookups s
    /\ (goal_status (trace s) = None ->
        goal_status (trace s') = Some Preempted).
Proof.
  intros Hpre Hpose Hname Hquiet Hfound Hcancel.
  destruct (averaged_total (samples_of p 10)) as [avg Havg]; [discriminate|].
  exists avg. eexists. split; [exact Havg|]. split.
  { rewrite navigate_to_marker_S.
    run_until Hpre. run_until Hpose. run_until Hname.
    erewrite (sample_transforms_found_uncancelled w 10 [] _ p);
      [|exact Hquiet|exact Hfound].
    rewrite app_nil_l, Havg. unfold advance. cbn in Hcancel.
    run_until Hcancel.
    unfold move_base_aruco_callback. run_until Hcancel.
    reflexivity. }
  split.
  { cbn [trace]. unfold cycle_start, sampling, cancel_goals_calls. cbn.
    by rewrite <- !app_assoc. }
  split; [reflexivity|]. split; [reflexivity|]. split; [reflexivity|].
  split; [reflexivity|].
  intros Hactive. cbn [trace].
  rewrite !goal_status_app, Hactive. reflexivity.
Qed.

(** X5, witness: a server that holds the request for "dock" and whose
    eleventh blocking call, the wait for [move_base], is the one that is
    cancelled. *)
Lemma cancel_during_navigation_witness :
  exists avg s',
    averaged (TF := tf_at_identity) (samples_of (fun _ => upright 1 2 0) 10)
      = Some avg
    /\ navigate_to_marker (TF := tf_at_identity) (LM := correctly_rounded)
         (cancelled_during 10) 1 assigned
       = Ok tt s'
    /\ trace s' =
         trace assigned ++ cycle_start assigned "dock" (upright 0.5 0 0)
         ++ sampling 10
         ++ [MoveBaseGoal "map" (pose_of avg);
             HeadScanCancelAll; MoveBaseCancelAll; SetPreempted;
             IsPreemptRequested true;
             PublishFeedback "Aruco navigation cancelled!" "error"]
    /\ preempt_request s' = true
    /\ num_tries s' = 1%Z
    /\ n_scans s' = 0
    /\ n_lookups s' = 10
    /\ (goal_status (trace assigned) = None ->
        goal_status (trace s') = Some Preempted).
Proof.
  apply (cancel_during_navigation (TF := tf_at_identity)
           (LM := correctly_rounded) (cancelled_during 10)
           0 assigned "dock" (upright 0.5 0 0) (fun _ => upright 1 2 0));
    try reflexivity.
  intros i Hi. do 10 (destruct i as [|i]; [reflexivity|]). lia.
Defined.

(** X6: after a navigation goal, with no cancellation pending and the
    counter below [max_tries], when the new head scan does not find the
    marker the server publishes "Could not find Aruco Marker..." (error)
    and calls [set_aborted]: it looks up no transform, keeps its last
    estimate of the marker and starts no further cycle. *)
Theorem rescan_failure_aborts `{TF : Transformations} `{LM : Libm}
    (w : World) (nav : M unit) (result : Z) (s : St) (name : string) :
  (forall i, cancel_arrives w i = false) ->
  preempt_request s = false ->
  num_tries s <> max_tries s ->
  aruco_name s = Some name ->
  head_scan_result w (n_scans s) = false ->
  move_base_aruco_callback w nav result s =
    Ok tt
       (advance s (num_tries s) (map_to_aruco s) (relative_pose_tf s)
          2 1 0 0
          [IsPreemptRequested false; Sleep; HeadScanGoal name;
           HeadScanGetResult false;
           PublishFeedback not_located "error"; SetAborted]).
Proof.
  intros Hquiet Hpre Htries Hname Hscan. unfold move_base_aruco_callback.
  repeat (progress (autounfold with py; cbn;
                    rewrite ?blocking_run, ?(after_blocking_quiet w Hquiet))).
  rewrite Hpre.
  repeat (progress (autounfold with py; cbn;
                    rewrite ?blocking_run, ?(after_blocking_quiet w Hquiet))).
  destruct (Z.eqb_spec (num_tries s) (max_tries s)) as [|_]; [done|].
  repeat (progress (autounfold with py; cbn;
                    rewrite ?blocking_run, ?(after_blocking_quiet w Hquiet))).
  rewrite Hname.
  repeat (progress (autounfold with py; cbn;
                    rewrite ?blocking_run, ?(after_blocking_quiet w Hquiet))).
  rewrite Hscan. unfold advance. cbn.
  by rewrite <- !app_assoc, Hpre, Hname.
Qed.

(** X6, witness. *)
Lemma rescan_failure_aborts_witness :
  move_base_aruco_callback (TF := tf_at_identity)
      (LM := correctly_rounded) marker_lost_later
      (navigate_to_marker (TF := tf_at_identity)
          (LM := correctly_rounded) marker_lost_later 2)
      STATUS_SUCCEEDED after_first_navigation
    = Ok tt
        (advance after_first_navigation 1
           (Some (mkTransformStamped "map" "dock" (upright 1 2 0))) None
           2 1 0 0
           [IsPreemptRequested false; Sleep; HeadScanGoal "dock";
            HeadScanGetResult false;
            PublishFeedback not_located "error"; SetAborted]).
Proof.
  apply (rescan_failure_aborts (TF := tf_at_identity)
           (LM := correctly_rounded) marker_lost_later
           (navigate_to_marker (TF := tf_at_identity)
              (LM := correctly_rounded) marker_lost_later 2)
           STATUS_SUCCEEDED after_first_navigation "dock");
    try reflexivity.
  discriminate.
Defined.

(** X7: after a navigation goal, with no cancellation pending, the
    counter below [max_tries] and the marker found by the new scan, a
    failure of the lookup of the marker's pose is caught: the server
    publishes "Navigation failed, please try again." (error) and calls
    [set_aborted]; no exception leaves the callback, the last estimate is
    kept and no further cycle starts. *)
Theorem drift_lookup_failure_aborts `{TF : Transformations} `{LM : Libm}
    (w : World) (nav : M unit) (result : Z) (s : St) (name : string)
    (e : tf2_error) :
  (forall i, cancel_arrives w i = false) ->
  preempt_request s = false ->
  num_tries s <> max_tries s ->
  aruco_name s = Some name ->
  head_scan_result w (n_scans s) = true ->
  tf_lookup w (n_lookups s) = NotFound e ->
  move_base_aruco_callback w nav result s =
    Ok tt
       (advance s (num_tries s) (map_to_aruco s) (relative_pose_tf s)
          3 1 1 0
          (rescan name
           ++ [PublishFeedback navigation_failed "error"; SetAborted])).
Proof.
  intros Hquiet Hpre Htries Hname Hscan Hfails.
  unfold move_base_aruco_callback.
  repeat (progress (autounfold with py; cbn;
                    rewrite ?blocking_run, ?(after_blocking_quiet w Hquiet))).
  rewrite Hpre.
  repeat (progress (autounfold with py; cbn;
                    rewrite ?blocking_run, ?(after_blocking_quiet w Hquiet))).
  destruct (Z.eqb_spec (num_tries s) (max_tries s)) as [|_]; [done|].
  repeat (progress (autounfold with py; cbn;
                    rewrite ?blocking_run, ?(after_blocking_quiet w Hquiet))).
  rewrite Hname.
  repeat (progress (autounfold with py; cbn;
                    rewrite ?blocking_run, ?(after_blocking_quiet w Hquiet))).
  rewrite Hscan.
  repeat (progress (autounfold with py; cbn;
                    rewrite ?blocking_run, ?(after_blocking_quiet w Hquiet))).
  rewrite Hfails. cbn. rewrite caught_tf2. unfold advance, rescan. cbn.
  by rewrite <- !app_assoc, Hpre, Hname.
Qed.

(** X7, witness. *)
Lemma drift_lookup_failure_aborts_witness :
  move_base_aruco_callback (TF := tf_at_identity)
      (LM := correctly_rounded) sampling_breaks
      (navigate_to_marker (TF := tf_at_identity)
          (LM := correctly_rounded) sampling_breaks 2)
      STATUS_SUCCEEDED after_first_navigation
    = Ok tt
        (advance after_first_navigation 1
           (Some (mkTransformStamped "map" "dock" (upright 1 2 0))) None
           3 1 1 0
           [IsPreemptRequested false; Sleep; HeadScanGoal "dock";
            HeadScanGetResult true; LookupTransform "map" "dock";
            PublishFeedback navigation_failed "error"; SetAborted]).
Proof.
  apply (drift_lookup_failure_aborts (TF := tf_at_identity)
           (LM := correctly_rounded) sampling_breaks
           (navigate_to_marker (TF := tf_at_identity)
              (LM := correctly_rounded) sampling_breaks 2)
           STATUS_SUCCEEDED after_first_navigation "dock" TfConnectivity);
    try reflexivity.
  discriminate.
Defined.

(** ** What every request's trace is made of *)

Section Emits.
Context `{TF : Transformations} `{LM : Libm}.
Variable w : World.
Variable flag_ok : bool -> Prop.
Variable Q : list event -> Prop.
Hypothesis Q_nil : Q [].
Hypothesis Q_app : forall l k, Q l -> Q k -> Q (l ++ k).
Hypothesis Q_routine : forall e, routine e = true -> Q [e].
Hypothesis Q_asked : forall b, flag_ok b -> Q [IsPreemptRequested b].
Hypothesis Q_cancelled :
  flag_ok true -> Q [PublishFeedback "Aruco navigation cancelled!" "error"].
Hypothesis Q_not_located : Q [PublishFeedback not_located "error"; SetAborted].
Hypothesis Q_failed :
  Q [PublishFeedback navigation_failed "error"; SetAborted].
Hypothesis Q_succeeded :
  Q [PublishFeedback "Navigation succeeded!" "success"; SetSucceeded].
Hypothesis Q_goal :
  forall samples avg,
    averaged samples = Some avg -> Q [MoveBaseGoal "map" (pose_of avg)].
Hypothesis Q_blocking :
  forall k b, flag_ok b ->
    flag_ok (b || cancel_arrives w k)
    /\ Q (if cancel_arrives w k then cancel_goals_calls else []).

Local Abbreviation emits' := (emits flag_ok Q).

Lemma emits_ret {A} (a : A) (V : A -> Prop) : V a -> emits' (ret a) V.
Proof.
  intros Ha s Hs. cbn. split; [done|]. split; [done|].
  exists []. by rewrite app_nil_r.
Qed.

Lemma emits_raise {A} (e : exn) (V : A -> Prop) : emits' (raise e) V.
Proof.
  intros s Hs. cbn. split; [done|]. exists []. by rewrite app_nil_r.
Qed.

Lemma emits_weaken {A} (m : M A) (V V' : A -> Prop) :
  emits' m V -> (forall a, V a -> V' a) -> emits' m V'.
Proof.
  intros Hm HV s Hs. specialize (Hm s Hs).
  destruct (m s); [|done..]. destruct Hm as (? & ? & ?). auto.
Qed.

Lemma emits_bind {A B} (m : M A) (f : A -> M B) (V : A -> Prop)
    (V' : B -> Prop) :
  emits' m V -> (forall a, V a -> emits' (f a) V') -> emits' (bind m f) V'.
Proof.
  intros Hm Hf s Hs. unfold bind. specialize (Hm s Hs).
  destruct (m s) as [a s1|e s1|]; [|done..].
  destruct Hm as (Ha & Hs1 & calls1 & Htr1 & HQ1).
  specialize (Hf a Ha s1 Hs1).
  destruct (f a s1) as [b s2|e s2|]; [| |done].
  - destruct Hf as (Hb & Hs2 & calls2 & Htr2 & HQ2).
    split; [done|]. split; [done|]. exists (calls1 ++ calls2).
    split; [by rewrite Htr2, Htr1, app_assoc|by apply Q_app].
  - destruct Hf as (Hs2 & calls2 & Htr2 & HQ2).
    split; [done|]. exists (calls1 ++ calls2).
    split; [by rewrite Htr2, Htr1, app_assoc|by apply Q_app].
Qed.

Lemma emits_try_except {A} (body handler : M A) (V : A -> Prop) :
  emits' body V -> emits' handler V -> emits' (try_except body handler) V.
Proof.
  intros Hb Hh s Hs. unfold try_except. specialize (Hb s Hs).
  destruct (body s) as [a s1|e s1|]; [done| |done].
  destruct (caught e); [|done].
  destruct Hb as (Hs1 & calls1 & Htr1 & HQ1).
  specialize (Hh s1 Hs1).
  destruct (handler s1) as [b s2|e2 s2|]; [| |done].
  - destruct Hh as (Hb & Hs2 & calls2 & Htr2 & HQ2).
    split; [done|]. split; [done|]. exists (calls1 ++ calls2).
    split; [by rewrite Htr2, Htr1, app_assoc|by apply Q_app].
  - destruct Hh as (Hs2 & calls2 & Htr2 & HQ2).
    split; [done|]. exists (calls1 ++ calls2).
    split; [by rewrite Htr2, Htr1, app_assoc|by apply Q_app].
Qed.

Lemma emits_calls (calls : list event) (m : M unit) :
  Q calls ->
  (forall s, exists s', m s = Ok tt s'
     /\ preempt_request s' = preempt_request s
     /\ trace s' = trace s ++ calls) ->
  emits' m (fun _ => True).
Proof.
  intros HQ Hm s Hs. destruct (Hm s) as (s' & -> & Hflag & Htr).
  split; [done|]. rewrite Hflag. split; [done|]. by exists calls.
Qed.

Lemma emits_silent {A} (m : M A) :
  (forall s, match m s with
             | Ok _ s' | Raise _ s' =>
                 preempt_request s' = preempt_request s /\ trace s' = trace s
             | OutOfFuel => False
             end) ->
  emits' m (fun _ => True).
Proof.
  intros Hm s Hs. specialize (Hm s).
  destruct (m s) as [a s'|e s'|]; [| |done]; destruct Hm as [Hflag Htr];
    rewrite Hflag, Htr; repeat split; try done;
    exists []; by rewrite app_nil_r.
Qed.

Lemma emits_routine (e : event) :
  routine e = true -> emits' (emit e) (fun _ => True).
Proof.
  intros He. apply (emits_calls [e]); [by apply Q_routine|].
  intros s. eexists. by split; [reflexivity|].
Qed.

Lemma emits_set_num_tries (n : Z) : emits' (set_num_tries n) (fun _ => True).
Proof.
  apply (emits_calls [NumTries n]); [by apply Q_routine|].
  intros s. eexists. by split; [reflexivity|].
Qed.

Lemma emits_get {A} (f : St -> A) : emits' (get f) (fun _ => True).
Proof. apply emits_silent. by intros s. Qed.

Lemma emits_set_goal (g : Goal) : emits' (set_goal g) (fun _ => True).
Proof. apply emits_silent. by intros s. Qed.

Lemma emits_set_map_to_aruco (t : TransformStamped) :
  emits' (set_map_to_aruco t) (fun _ => True).
Proof. apply emits_silent. by intros s. Qed.

Lemma emits_set_relative_pose_tf (t : TransformStamped) :
  emits' (set_relative_pose_tf t) (fun _ => True).
Proof. apply emits_silent. by intros s. Qed.

Lemma emits_get_map_to_aruco : emits' get_map_to_aruco (fun _ => True).
Proof.
  apply emits_silent. intros s. unfold get_map_to_aruco.
  by destruct (map_to_aruco s).
Qed.

Lemma emits_get_attr {A} (f : St -> option A) :
  emits' (get_attr f) (fun _ => True).
Proof. apply emits_silent. intros s. unfold get_attr. by destruct (f s). Qed.

Lemma emits_count_scan : emits' count_scan (fun _ => True).
Proof. apply emits_silent. by intros s. Qed.

Lemma emits_count_lookup : emits' count_lookup (fun _ => True).
Proof. apply emits_silent. by intros s. Qed.

Lemma emits_count_nav : emits' count_nav (fun _ => True).
Proof. apply emits_silent. by intros s. Qed.

Lemma emits_blocking : emits' (blocking w) (fun _ => True).
Proof.
  intros s Hs. rewrite blocking_run. unfold after_blocking. cbn.
  destruct (Q_blocking (n_blocking s) _ Hs) as [Hflag Hcalls].
  split; [done|]. split; [done|]. eauto.
Qed.

Lemma emits_is_preempt_requested : emits' is_preempt_requested flag_ok.
Proof.
  intros s Hs. cbn. split; [done|]. split; [done|].
  eexists. split; [reflexivity|]. by apply Q_asked.
Qed.

Lemma emits_preempt_callback :
  flag_ok true -> emits' preempt_callback (fun _ => True).
Proof.
  intros Hflag.
  apply (emits_calls [PublishFeedback "Aruco navigation cancelled!" "error"]);
    [by apply Q_cancelled|].
  intros s. eexists. by split; [reflexivity|].
Qed.

Lemma emits_abort {A} (state : string) (a : A) :
  Q [PublishFeedback state "error"; SetAborted] ->
  emits' (publish_feedback state "error";; set_aborted;; ret a)%py
    (fun _ => True).
Proof.
  intros HQ s Hs. cbn. split; [done|]. split; [done|].
  eexists. split; [|exact HQ]. by rewrite <- app_assoc.
Qed.

Lemma emits_abort_unit (state : string) :
  Q [PublishFeedback state "error"; SetAborted] ->
  emits' (publish_feedback state "error";; set_aborted)%py (fun _ => True).
Proof.
  intros HQ s Hs. cbn. split; [done|]. split; [done|].
  eexists. split; [|exact HQ]. by rewrite <- app_assoc.
Qed.

Lemma emits_report_success :
  emits' (publish_feedback "Navigation succeeded!" "success";; set_succeeded)%py
    (fun _ => True).
Proof.
  intros s Hs. cbn. split; [done|]. split; [done|].
  eexists. split; [|exact Q_succeeded]. by rewrite <- app_assoc.
Qed.

Lemma emits_head_scan_send_goal_and_wait (name : string) :
  emits' (head_scan_send_goal_and_wait w name) (fun _ => True).
Proof.
  unfold head_scan_send_goal_and_wait.
  eapply emits_bind; [by apply emits_routine|intros _ _].
  eapply emits_bind; [apply emits_count_scan|intros _ _].
  apply emits_blocking.
Qed.

Lemma emits_head_scan_get_result :
  emits' (head_scan_get_result w) (fun _ => True).
Proof.
  unfold head_scan_get_result.
  eapply emits_bind; [apply emits_get|intros n _].
  eapply emits_bind; [by apply emits_routine|intros _ _].
  by apply emits_ret.
Qed.

Lemma emits_lookup_transform (target source : string) :
  emits' (lookup_transform w target source) (fun _ => True).
Proof.
  unfold lookup_transform.
  eapply emits_bind; [by apply emits_routine|intros _ _].
  eapply emits_bind; [apply emits_get|intros n _].
  eapply emits_bind; [apply emits_count_lookup|intros _ _].
  eapply emits_bind; [apply emits_blocking|intros _ _].
  destruct (tf_lookup w n); [by apply emits_ret|apply emits_raise].
Qed.

Lemma emits_sleep : emits' (sleep w) (fun _ => True).
Proof.
  unfold sleep.
  eapply emits_bind; [by apply emits_routine|intros _ _].
  apply emits_blocking.
Qed.

Lemma emits_move_base_send_goal_and_wait
    (samples : list TransformStamped) (avg : TransformStamped) :
  averaged samples = Some avg ->
  emits' (move_base_send_goal_and_wait w "map" (pose_of avg)) (fun _ => True).
Proof.
  intros Havg. unfold move_base_send_goal_and_wait.
  eapply emits_bind.
  { apply (emits_calls [MoveBaseGoal "map" (pose_of avg)]);
      [by apply (Q_goal samples)|].
    intros s. eexists. by split; [reflexivity|]. }
  intros _ _.
  eapply emits_bind; [apply emits_get|intros n _].
  eapply emits_bind; [apply emits_count_nav|intros _ _].
  eapply emits_bind; [apply emits_blocking|intros _ _].
  by apply emits_ret.
Qed.

Lemma emits_sample_transforms (k : nat) :
  forall transforms,
    emits' (sample_transforms w k transforms) (fun _ => True).
Proof.
  induction k as [|k IH]; intros transforms.
  - by apply emits_ret.
  - rewrite sample_transforms_S.
    eapply (emits_bind _ _ (fun _ => True)).
    { apply emits_try_except.
      - eapply emits_bind; [apply emits_lookup_transform|intros t _].
        by apply emits_ret.
      - by apply emits_abort. }
    intros [transforms'|] _; [apply IH|by apply emits_ret].
Qed.

Lemma emits_move_base_aruco_callback (nav : M unit) (result : Z) :
  emits' nav (fun _ => True) ->
  emits' (move_base_aruco_callback w nav result) (fun _ => True).
Proof.
  intros Hnav. unfold move_base_aruco_callback.
  eapply emits_bind; [apply emits_is_preempt_requested|intros preempt Hflag].
  destruct preempt; [by apply emits_preempt_callback|].
  eapply emits_bind; [apply emits_get|intros tries _].
  eapply emits_bind; [apply emits_get|intros limit _].
  destruct (tries =? limit)%Z.
  { eapply emits_bind; [apply emits_set_num_tries|intros _ _].
    by apply emits_abort_unit. }
  eapply emits_bind; [apply emits_sleep|intros _ _].
  eapply emits_bind; [apply emits_get_attr|intros name _].
  eapply emits_bind;
    [apply emits_head_scan_send_goal_and_wait|intros _ _].
  eapply emits_bind; [apply emits_head_scan_get_result|intros found _].
  destruct found; cbn [negb]; [|by apply emits_abort_unit].
  eapply (emits_bind _ _ (fun _ => True)).
  { apply emits_try_except.
    - eapply emits_bind; [apply emits_lookup_transform|intros t _].
      by apply emits_ret.
    - by apply emits_abort. }
  intros [new_map_to_aruco|] _; [|by apply emits_ret].
  eapply emits_bind; [apply emits_get_map_to_aruco|intros old _].
  destruct (calculate_diff old new_map_to_aruco) as [e|diff];
    [apply emits_raise|].
  eapply (emits_bind _ _ (fun _ => True));
    [|intros _ _; apply emits_report_success].
  destruct (exceeds_threshold diff); [|by apply emits_ret].
  eapply emits_bind; [apply emits_set_map_to_aruco|intros _ _].
  exact Hnav.
Qed.

Lemma emits_navigate_to_marker (depth : nat) :
  emits' (navigate_to_marker w depth) (fun _ => True).
Proof.
  induction depth as [|depth IH]; [by intros s Hs|].
  rewrite navigate_to_marker_S.
  eapply emits_bind; [apply emits_is_preempt_requested|intros preempt Hflag].
  destruct preempt; [by apply emits_preempt_callback|].
  eapply emits_bind; [apply emits_get|intros tries _].
  eapply emits_bind; [apply emits_set_num_tries|intros _ _].
  eapply emits_bind; [apply emits_get_attr|intros pose _].
  eapply emits_bind; [apply emits_get_attr|intros name _].
  eapply emits_bind; [by apply emits_routine|intros _ _].
  eapply emits_bind; [by apply emits_routine|intros _ _].
  eapply emits_bind; [apply emits_sample_transforms|intros sampled _].
  destruct sampled as [samples|]; [|by apply emits_ret].
  destruct (averaged samples) as [avg|] eqn:Havg; [|apply emits_raise].
  eapply emits_bind; [apply emits_set_relative_pose_tf|intros _ _].
  eapply emits_bind;
    [by apply (emits_move_base_send_goal_and_wait samples)|intros result _].
  by apply emits_move_base_aruco_callback.
Qed.

Lemma emits_execute_callback (depth : nat) (goal : Goal) :
  emits' (execute_callback w depth goal) (fun _ => True).
Proof.
  unfold execute_callback.
  eapply emits_bind; [apply emits_set_num_tries|intros _ _].
  eapply emits_bind; [apply emits_set_goal|intros _ _].
  eapply emits_bind; [by apply emits_routine|intros _ _].
  eapply emits_bind; [apply emits_get_attr|intros name _].
  eapply emits_bind;
    [apply emits_head_scan_send_goal_and_wait|intros _ _].
  eapply emits_bind; [apply emits_is_preempt_requested|intros preempt Hflag].
  destruct preempt; [by apply emits_preempt_callback|].
  eapply emits_bind; [apply emits_head_scan_get_result|intros found _].
  destruct found; cbn [negb]; [|by apply emits_abort_unit].
  eapply emits_bind; [apply emits_lookup_transform|intros marker _].
  eapply emits_bind; [apply emits_lookup_transform|intros t _].
  eapply emits_bind; [apply emits_set_map_to_aruco|intros _ _].
  apply emits_navigate_to_marker.
Qed.

(** A whole request, from acceptance on. *)
Lemma serve_accepted (depth : nat) (goal : Goal) (s : St) :
  serve w depth goal s = execute_callback w depth goal (accepted s).
Proof. reflexivity. Qed.

Lemma serve_trace (depth : nat) (goal : Goal) (s : St) :
  flag_ok false ->
  max_tries s = 3%Z ->
  3 <= depth ->
  exists s', final (serve w depth goal s) = Some s' /\ Q (trace s').
Proof.
  intros Hflag Hmax Hdepth.
  destruct (ends_final _ _ (serve_cycles w depth goal s Hmax Hdepth))
    as (s' & Hfinal & _).
  exists s'. split; [exact Hfinal|].
  rewrite serve_accepted in Hfinal.
  pose proof (emits_execute_callback depth goal (accepted s) Hflag) as Hrun.
  destruct (execute_callback w depth goal (accepted s)) as [a s1|e s1|];
    [| |done]; injection Hfinal as ->.
  - by destruct Hrun as (_ & _ & calls & -> & HQ).
  - by destruct Hrun as (_ & calls & -> & HQ).
Qed.

End Emits.

Lemma average_transforms_planar `{TF : Transformations} (h : store)
    (transforms : list loc) :
  transforms <> [] ->
  (forall l, l ∈ transforms -> is_Some (h !! l)) ->
  exists h' trans avg yaw,
    average_transforms h transforms = Some (h', trans)
    /\ h' !! trans = Some avg
    /\ tz avg = 0%float
    /\ trot avg = quaternion_from_euler 0%float 0%float yaw.
Proof.
  intros Hne Hlive. destruct transforms as [|trans rest]; [done|].
  destruct (Hlive trans) as [t Ht]; [left|].
  unfold average_transforms. cbn. rewrite Ht. cbn.
  rewrite lookup_insert_eq. cbn.
  destruct (average_transforms_loop_frame trans rest
              (<[trans:=set_tz 0 t]> h)
              (angle_2 (euler_from_quaternion (trot t)))
              (set_tz 0 t))
    as (h1 & a1 & t1 & Hrun & Ht1 & Hsame & Hfr).
  { by rewrite lookup_insert_eq. }
  { intros l Hl. destruct (decide (l = trans)) as [->|Hl'].
    - by rewrite lookup_insert_eq.
    - rewrite lookup_insert_ne by done. apply Hlive. by right. }
  rewrite Hrun. cbn. rewrite Ht1. cbn.
  repeat (rewrite lookup_insert_eq; cbn).
  eexists _, trans, _, _. split; [reflexivity|].
  split; [apply lookup_insert_eq|]. split.
  - cbn. by destruct Hsame as [-> _].
  - reflexivity.
Qed.

Lemma averaged_planar `{TF : Transformations}
    (samples : list TransformStamped) (avg : TransformStamped) :
  averaged samples = Some avg ->
  tz avg = 0%float
  /\ exists yaw, trot avg = quaternion_from_euler 0%float 0%float yaw.
Proof.
  intros Havg. unfold averaged, alloc in Havg.
  destruct samples as [|t0 rest]; [discriminate|].
  destruct (average_transforms_planar (map_seq 0 (t0 :: rest))
              (seq 0 (length (t0 :: rest))))
    as (h' & trans & avg' & yaw & Hrun & Hlook & Hz & Hq).
  - discriminate.
  - intros l [_ Hl]%elem_of_seq. rewrite lookup_map_seq_0.
    apply lookup_lt_is_Some. lia.
  - rewrite Hrun in Havg. cbn in Havg. rewrite Hlook in Havg.
    injection Havg as <-. eauto.
Qed.

Lemma announced_from_any (prev : option event) (tr : list event) :
  announced tr -> announced_from prev tr.
Proof.
  destruct tr as [|e tr]; [done|]. intros [He Htr]. split; [|exact Htr].
  destruct e; try done; by destruct He.
Qed.

Lemma announced_from_app (tr tr' : list event) :
  forall prev,
    announced_from prev tr -> announced tr' -> announced_from prev (tr ++ tr').
Proof.
  induction tr as [|e tr IH]; intros prev Htr Htr'.
  - by apply announced_from_any.
  - destruct Htr as [He Htr]. split; [exact He|]. by apply IH.
Qed.

(** X8: whatever the collaborators and the client do, every navigation
    goal a request sends is expressed in the frame "map", lies in the
    plane [z = 0] and carries an orientation
    [quaternion_from_euler(0, 0, yaw)]. *)
Theorem every_goal_is_planar `{TF : Transformations} `{LM : Libm} (w : World)
    (depth : nat) (goal : Goal) (s : St) :
  max_tries s = 3%Z ->
  3 <= depth ->
  exists s',
    final (serve w depth goal s) = Some s'
    /\ Forall planar_goal (trace s').
Proof.
  apply (serve_trace w (fun _ => True) (Forall planar_goal)); try done.
  - apply Forall_app_2.
  - intros e He. destruct e; try discriminate; by repeat constructor.
  - intros b _. by repeat constructor.
  - intros _. by repeat constructor.
  - by repeat constructor.
  - by repeat constructor.
  - by repeat constructor.
  - intros samples avg [Hz [yaw Hq]]%averaged_planar.
    repeat constructor; [exact Hz|].
    exists yaw. cbn. rewrite <- Hq. by destruct (trot avg).
  - intros k b _. split; [done|].
    destruct (cancel_arrives w k); by repeat constructor.
Qed.

(** X8, witness. *)
Lemma every_goal_is_planar_witness :
  exists s',
    final (serve (TF := tf_at_identity)
        (LM := correctly_rounded) drifting 3 dock init) = Some s'
    /\ Forall (planar_goal (TF := tf_at_identity)) (trace s').
Proof.
  apply (every_goal_is_planar (TF := tf_at_identity)
      (LM := correctly_rounded) drifting 3 dock init).
  - reflexivity.
  - lia.
Defined.

(** X9: whatever the collaborators and the client do, in the trace of a
    request every [set_aborted] directly follows a published feedback of
    class "error" and every [set_succeeded] directly follows a published
    feedback of class "success". *)
Theorem every_verdict_is_announced `{TF : Transformations} `{LM : Libm}
    (w : World)
    (depth : nat) (goal : Goal) (s : St) :
  max_tries s = 3%Z ->
  3 <= depth ->
  exists s',
    final (serve w depth goal s) = Some s'
    /\ announced (trace s').
Proof.
  intros Hmax Hdepth.
  refine (serve_trace w (fun _ => True) announced _ _ _ _ _ _ _ _ _ _
            depth goal s I Hmax Hdepth).
  - exact I.
  - intros l k Hl Hk. by apply announced_from_app.
  - intros e He. destruct e; try discriminate; by split.
  - intros b _. by split.
  - intros _. by split.
  - split; [done|]. split; [by eexists|done].
  - split; [done|]. split; [by eexists|done].
  - split; [done|]. split; [by eexists|done].
  - intros samples avg _. by split.
  - intros k b _. split; [done|].
    destruct (cancel_arrives w k); [|done]. by repeat split.
Qed.

(** X9, witness. *)
Lemma every_verdict_is_announced_witness :
  exists s',
    final (serve (TF := tf_at_identity)
        (LM := correctly_rounded) drifting 3 dock init) = Some s'
    /\ announced (trace s').
Proof.
  apply (every_verdict_is_announced (TF := tf_at_identity)
      (LM := correctly_rounded) drifting 3 dock
           init).
  - reflexivity.
  - lia.
Defined.

(** X10: when the client never cancels, a request makes no call that
    belongs to a cancellation: no [cancel_all_goals] on either client, no
    [set_preempted], no positive answer of [is_preempt_requested] and no
    feedback "Aruco navigation cancelled!". *)
Theorem no_cancellation_without_request `{TF : Transformations} `{LM : Libm}
    (w : World)
    (depth : nat) (goal : Goal) (s : St) :
  (forall k, cancel_arrives w k = false) ->
  max_tries s = 3%Z ->
  3 <= depth ->
  exists s',
    final (serve w depth goal s) = Some s'
    /\ Forall (fun e => cancellation_call e = false) (trace s').
Proof.
  intros Hquiet.
  apply (serve_trace w (fun b => b = false)
           (Forall (fun e => cancellation_call e = false))); try done.
  - apply Forall_app_2.
  - intros e He. repeat constructor.
    destruct e; try discriminate; try reflexivity.
    cbn in He |- *.
    apply andb_true_iff in He as [[->%String.eqb_eq| ->%String.eqb_eq]%orb_true_iff _];
      reflexivity.
  - intros b ->. by repeat constructor.
  - by repeat constructor.
  - by repeat constructor.
  - by repeat constructor.
  - intros samples avg _. by repeat constructor.
  - intros k b ->. rewrite Hquiet. by split.
Qed.

(** X10, witness. *)
Lemma no_cancellation_without_request_witness :
  exists s',
    final (serve (TF := tf_at_identity)
        (LM := correctly_rounded) drifting 3 dock init) = Some s'
    /\ Forall (fun e => cancellation_call e = false) (trace s').
Proof.
  apply (no_cancellation_without_request (TF := tf_at_identity)
      (LM := correctly_rounded) drifting 3
           dock init).
  - reflexivity.
  - reflexivity.
  - lia.
Defined.
